(** * Novile editor widget: the facade of [src/editor.cpp] over an embedded web view

    [Editor] is a thin adapter: every public operation builds a JavaScript
    source string and hands it to [EditorPrivate::executeJavaScript], which
    evaluates it in the page shown by a [QWebView].  The development has three
    layers:

    - [Qt]: the few Qt value types the facade touches ([QString], [QUrl],
      [QVariant] and its conversions);
    - [Bridge] and [Novile]: the calls [EditorPrivate] makes on the web view,
      as a small program monad, and the methods of [editor.cpp] written in it;
    - [JS] and [WebView]: a script host that interprets those calls: a lexer,
      parser and evaluator for the expression statements the facade emits,
      run against a record describing the page. *)

From Stdlib Require Import ZArith NArith List String Ascii Lia.
From Stdlib Require Import Decimal DecimalPos DecimalString.
From stdpp Require Import gmap list.
Import ListNotations.

Local Open Scope Z_scope.

(* ===================================================================== *)
(** ** Qt value types *)
(* ===================================================================== *)

Module Qt.

(** A [QChar] is a UTF-16 code unit and a [QString] a sequence of them. *)
Abbreviation QChar := N (only parsing).
Abbreviation QString := (list N) (only parsing).

(** A C++ string literal, as the [QString] it converts to. *)
Definition qs (s : string) : QString :=
  map N_of_ascii (list_ascii_of_string s).
Arguments qs s%_string : simpl never.

(** [QString::number(int)]: decimal digits, with a minus sign when negative. *)
Definition QString_number (n : Z) : QString :=
  qs (NilZero.string_of_int (Z.to_int n)).
Arguments QString_number n : simpl never.

(** [QUrl]: only construction from a string and [toString] are used, on
    absolute [qrc:] addresses, which [toString] gives back unchanged. *)
Record QUrl : Type := mkQUrl { url_text : QString }.

Definition QUrl_toString (u : QUrl) : QString := url_text u.

(** [QVariant] as it comes back from [QWebFrame::evaluateJavaScript]: invalid
    for [undefined] and for a script that failed, otherwise the converted
    value.  JavaScript numbers are kept to the integer-valued ones. *)
Inductive QVariant : Type :=
| VInvalid
| VBool (b : bool)
| VNumber (z : Z)
| VString (s : QString)
| VOther.

(** Conversion to [int] wraps to 32 bits. *)
Definition wrap32 (z : Z) : Z :=
  (z + 2 ^ 31) mod 2 ^ 32 - 2 ^ 31.

Definition is_digit (c : N) : bool := ((48 <=? c) && (c <=? 57))%N.

Definition digit_value (c : N) : Z := Z.of_N (c - 48).

(** Decimal digits to a number; [None] on anything else. *)
Fixpoint digits_value (acc : Z) (cs : QString) : option Z :=
  match cs with
  | [] => Some acc
  | c :: cs' =>
      if is_digit c then digits_value (10 * acc + digit_value c) cs' else None
  end.

(** White space as [QChar::isSpace] sees it, up to Latin-1. *)
Definition is_space (c : N) : bool :=
  ((9 <=? c) && (c <=? 13) || (c =? 32) || (c =? 133) || (c =? 160))%N.

Fixpoint trim_left (s : QString) : QString :=
  match s with
  | c :: s' => if is_space c then trim_left s' else s
  | [] => []
  end.

Definition trimmed (s : QString) : QString :=
  rev (trim_left (rev (trim_left s))).

Definition in_longlong_range (z : Z) : bool :=
  (- 2 ^ 63 <=? z) && (z <? 2 ^ 63).

(** [QString::toLongLong] in the C locale: white space around, an optional
    sign, decimal digits, within 64 bits; [None] stands for the failed
    conversion. *)
Definition QString_toLongLong (s : QString) : option Z :=
  let signed :=
    match trimmed s with
    | 45%N :: (_ :: _) as ds => Z.opp <$> digits_value 0 ds
    | 43%N :: (_ :: _) as ds => digits_value 0 ds
    | (_ :: _) as ds => digits_value 0 ds
    | [] => None
    end in
  match signed with
  | Some z => if in_longlong_range z then Some z else None
  | None => None
  end.

(** [QVariant::toInt]: 0 when the variant cannot be converted; a number
    that does not fit is cut to 32 bits. *)
Definition toInt (v : QVariant) : Z :=
  match v with
  | VInvalid => 0
  | VBool b => if b then 1 else 0
  | VNumber z => wrap32 z
  | VString s => wrap32 (default 0 (QString_toLongLong s))
  | VOther => 0
  end.

Definition to_lower (c : N) : N :=
  if ((65 <=? c) && (c <=? 90))%N then (c + 32)%N else c.

(** [QVariant::toBool]: a string is true unless its lower-case form is
    empty, "0" or "false". *)
Definition toBool (v : QVariant) : bool :=
  match v with
  | VInvalid => false
  | VBool b => b
  | VNumber z => negb (z =? 0)
  | VString s =>
      let l := map to_lower s in
      negb (bool_decide (l = []) || bool_decide (l = qs "0")
            || bool_decide (l = qs "false"))
  | VOther => false
  end.

(** [QVariant::toString]: the empty string when there is no conversion; an
    integer-valued number prints as its decimal digits (up to fifteen of
    them, beyond which Qt switches to exponent notation). *)
Definition toString (v : QVariant) : QString :=
  match v with
  | VInvalid => []
  | VBool b => if b then qs "true" else qs "false"
  | VNumber z => QString_number z
  | VString s => s
  | VOther => []
  end.

End Qt.
Import Qt.

(* ===================================================================== *)
(** ** The calls of [EditorPrivate] on its web view *)
(* ===================================================================== *)

Module Bridge.

(** What [executeJavaScript] is given: source text built by the facade, or
    the bytes read from a bundled script.  The bundled files are not among
    the sources, so such a script is named by its resource path. *)
Inductive Script : Type :=
| Snippet (code : QString)
| ResourceScript (path : QString).

(** The primitives used by [EditorPrivate], each with its result type. *)
Inductive call : Type -> Type :=
| Load (url : QUrl) : call bool
    (* aceView->load(url); loop.exec(): returns once loadFinished(ok) fires *)
| AddToJavaScriptWindowObject (name : QString) : call unit
| OpenResource (path : QString) : call (option Script)
    (* QFile(path).open(ReadOnly), then readAll() *)
| EvaluateJavaScript (code : Script) : call QVariant.

(** Programs over these calls. *)
Inductive prog (A : Type) : Type :=
| Ret (a : A)
| Vis {X : Type} (c : call X) (k : X -> prog A).
Arguments Ret {A} a.
Arguments Vis {A X} c k.

Fixpoint bind {A B : Type} (p : prog A) (f : A -> prog B) : prog B :=
  match p with
  | Ret a => f a
  | Vis c k => Vis c (fun x => bind (k x) f)
  end.

Definition perform {X : Type} (c : call X) : prog X := Vis c Ret.

#[global] Instance prog_ret : MRet prog := @Ret.
#[global] Instance prog_bind : MBind prog := fun A B f p => bind p f.

(** What an observer of the web view sees of a run. *)
Inductive event : Type :=
| LoadFinished (url : QUrl) (ok : bool)
| Injected (name : QString)
| Opened (path : QString) (ok : bool)
| Evaluated (code : Script).

Definition event_of {X : Type} (c : call X) : X -> event :=
  match c in call T return T -> event with
  | Load url => fun ok => LoadFinished url ok
  | AddToJavaScriptWindowObject name => fun _ => Injected name
  | OpenResource path => fun r => Opened path (bool_decide (is_Some r))
  | EvaluateJavaScript code => fun _ => Evaluated code
  end.

(** A web view is anything that answers the calls, over some state. *)
Definition handler (S : Type) : Type := forall X : Type, call X -> S -> X * S.

Section Run.
Context {S : Type} (h : handler S).

(** Result, final state, and the calls in the order they happened, each
    with the state it was made in. *)
Fixpoint run {A : Type} (p : prog A) (s : S) : A * S * list (S * event) :=
  match p with
  | Ret a => (a, s, [])
  | Vis c k =>
      let '(x, s1) := h _ c s in
      let '(a, s2, log) := run (k x) s1 in
      (a, s2, (s, event_of c x) :: log)
  end.

Definition result {A : Type} (p : prog A) (s : S) : A := (run p s).1.1.
Definition final {A : Type} (p : prog A) (s : S) : S := (run p s).1.2.
Definition history {A : Type} (p : prog A) (s : S) : list (S * event) :=
  (run p s).2.
Definition events {A : Type} (p : prog A) (s : S) : list event :=
  (history p s).*2.
End Run.

(** The source texts among some events, in order. *)
Definition evaluated (evs : list event) : list Script :=
  omap (fun e => match e with Evaluated c => Some c | _ => None end) evs.

(** Programs whose only calls are evaluations of source text. *)
Inductive snippets_only {A : Type} : prog A -> Prop :=
| so_ret (a : A) : snippets_only (Ret a)
| so_eval (code : QString) (k : QVariant -> prog A) :
    (forall v, snippets_only (k v)) ->
    snippets_only (Vis (EvaluateJavaScript (Snippet code)) k).

End Bridge.
Import Bridge.

(* ===================================================================== *)
(** ** [editor.cpp] *)
(* ===================================================================== *)

Module Novile.

(** [editor.h] is not among the sources.  Its two enumerations are taken as
    given: one integer per enumerator named in the [switch] statements.  A
    value of an unscoped enumeration is an integer and need not be one of
    the enumerators. *)
Class EditorHeader : Type := {
  ModeCpp : Z; ModeCss : Z; ModeHtml : Z; ModeJavaScript : Z; ModePascal : Z;
  ModePhp : Z; ModePython : Z; ModeRuby : Z; ModeXml : Z;
  ThemeAmbiance : Z; ThemeMonokai : Z; ThemeTextMate : Z
}.

Abbreviation HighlightMode := Z (only parsing).
Abbreviation Theme := Z (only parsing).

(** The case labels of one [switch] are pairwise different, or the file
    would not compile. *)
Definition mode_labels `{EditorHeader} : list Z :=
  [ModeCpp; ModeCss; ModeHtml; ModeJavaScript; ModePascal; ModePhp;
   ModePython; ModeRuby; ModeXml].

Definition theme_labels `{EditorHeader} : list Z :=
  [ThemeAmbiance; ThemeMonokai; ThemeTextMate].

(** *** EditorPrivate *)

Definition executeJavaScript (code : Script) : prog QVariant :=
  perform (EvaluateJavaScript code).

Definition startAceWidget : prog unit :=
  _ ← perform (Load (mkQUrl (qs "qrc:/html/ace.html")));
  perform (AddToJavaScriptWindowObject (qs "Novile"));;
  listeners ← perform (OpenResource (qs ":/html/wrapper.js"));
  match listeners with
  | Some bytes => executeJavaScript bytes;; mret ()
  | None => mret ()
  end.

(** *** Editor *)

(** [Editor::Editor] *)
Definition Editor_new : prog unit := startAceWidget.

Definition lines : prog Z :=
  v ← executeJavaScript (Snippet (qs "property('lines')")); mret (toInt v).

Definition gotoLine (lineNumber : Z) : prog unit :=
  executeJavaScript
    (Snippet (qs "editor.gotoLine(" ++ QString_number lineNumber ++ qs ")"));;
  mret ().

Definition text : prog QString :=
  v ← executeJavaScript (Snippet (qs "property('text')")); mret (toString v).

Definition setText (newText : QString) : prog unit :=
  executeJavaScript (Snippet (qs "editor.setValue('" ++ newText ++ qs "')"));;
  executeJavaScript (Snippet (qs "editor.selection.clearSelection()"));;
  mret ().

Definition isReadOnly : prog bool :=
  v ← executeJavaScript (Snippet (qs "property('readonly')")); mret (toBool v).

(** The two literals of each branch are adjacent in the source and so are
    joined by the compiler. *)
Definition setReadOnly (readOnly : bool) : prog unit :=
  if readOnly then
    executeJavaScript (Snippet (qs "property('readonly', true);"
                                ++ qs "editor.setReadOnly(true);"));;
    mret ()
  else
    executeJavaScript (Snippet (qs "property('readonly', false)"
                                ++ qs "editor.setReadOnly(false);"));;
    mret ().

(** [Editor::setHighlightMode(const QString &, const QUrl &)] *)
Definition setHighlightMode_name_url (name : QString) (url : QUrl) : prog unit :=
  let request :=
    qs "" ++
    qs "$.getScript('" ++ QUrl_toString url ++
    (qs "');" ++ qs "editor.getSession().setMode('ace/mode/") ++ name ++
    qs "');" in
  executeJavaScript (Snippet request);; mret ().

(** [Editor::setHighlightMode(HighlightMode)]: the [switch], case by case
    in the order of the source; no [default]. *)
Definition setHighlightMode `{EditorHeader} (mode : HighlightMode) : prog unit :=
  if mode =? ModeCpp then
    setHighlightMode_name_url (qs "c_cpp") (mkQUrl (qs "qrc:/ace/mode-c_cpp.js"))
  else if mode =? ModeCss then
    setHighlightMode_name_url (qs "css") (mkQUrl (qs "qrc:/ace/mode-css.js"))
  else if mode =? ModeHtml then
    setHighlightMode_name_url (qs "html") (mkQUrl (qs "qrc:/ace/mode-html.js"))
  else if mode =? ModeJavaScript then
    setHighlightMode_name_url (qs "javascript")
                              (mkQUrl (qs "qrc:/ace/mode-javascript.js"))
  else if mode =? ModePascal then
    setHighlightMode_name_url (qs "pascal") (mkQUrl (qs "qrc:/ace/mode-pascal.js"))
  else if mode =? ModePhp then
    setHighlightMode_name_url (qs "php") (mkQUrl (qs "qrc:/ace/mode-php.js"))
  else if mode =? ModePython then
    setHighlightMode_name_url (qs "python") (mkQUrl (qs "qrc:/ace/mode-python.js"))
  else if mode =? ModeRuby then
    setHighlightMode_name_url (qs "ruby") (mkQUrl (qs "qrc:/ace/mode-ruby.js"))
  else if mode =? ModeXml then
    setHighlightMode_name_url (qs "xml") (mkQUrl (qs "qrc:/ace/mode-xml.js"))
  else mret ().

(** [Editor::setTheme(const QString &, const QUrl &)] *)
Definition setTheme_name_url (name : QString) (url : QUrl) : prog unit :=
  let request :=
    qs "" ++
    qs "$.getScript('" ++ QUrl_toString url ++
    (qs "');" ++ qs "editor.setTheme('ace/theme/") ++ name ++
    qs "');" in
  executeJavaScript (Snippet request);; mret ().

(** [Editor::setTheme(Theme)] *)
Definition setTheme `{EditorHeader} (theme : Theme) : prog unit :=
  if theme =? ThemeAmbiance then
    setTheme_name_url (qs "ambiance") (mkQUrl (qs "qrc:/ace/theme-ambiance.js"))
  else if theme =? ThemeMonokai then
    setTheme_name_url (qs "monokai") (mkQUrl (qs "qrc:/ace/theme-monokai.js"))
  else if theme =? ThemeTextMate then
    setTheme_name_url (qs "textmate") (mkQUrl (qs "qrc:/ace/theme-textmate.js"))
  else mret ().

(** *** Using an editor *)

(** One call of a public operation on a constructed editor. *)
Inductive operation : Type :=
| CallLines
| CallGotoLine (lineNumber : Z)
| CallText
| CallSetText (newText : QString)
| CallIsReadOnly
| CallSetReadOnly (readOnly : bool)
| CallSetHighlightMode (mode : HighlightMode)
| CallSetHighlightModeNameUrl (name : QString) (url : QUrl)
| CallSetTheme (theme : Theme)
| CallSetThemeNameUrl (name : QString) (url : QUrl).

Definition invoke `{EditorHeader} (o : operation) : prog unit :=
  match o with
  | CallLines => lines;; mret ()
  | CallGotoLine n => gotoLine n
  | CallText => text;; mret ()
  | CallSetText s => setText s
  | CallIsReadOnly => isReadOnly;; mret ()
  | CallSetReadOnly b => setReadOnly b
  | CallSetHighlightMode m => setHighlightMode m
  | CallSetHighlightModeNameUrl name url => setHighlightMode_name_url name url
  | CallSetTheme t => setTheme t
  | CallSetThemeNameUrl name url => setTheme_name_url name url
  end.

Fixpoint invoke_all `{EditorHeader} (os : list operation) : prog unit :=
  match os with
  | [] => mret ()
  | o :: os' => invoke o;; invoke_all os'
  end.

(** The life of an editor object: the constructor, then the calls its owner
    makes.  An operation needs the object, which exists only once the
    constructor has returned. *)
Definition session `{EditorHeader} (os : list operation) : prog unit :=
  Editor_new;; invoke_all os.

(** The enumerators numbered from zero in the order of the [switch]
    statements, as a header declaring them without initialisers would. *)
Definition default_header : EditorHeader := {|
  ModeCpp := 0; ModeCss := 1; ModeHtml := 2; ModeJavaScript := 3;
  ModePascal := 4; ModePhp := 5; ModePython := 6; ModeRuby := 7; ModeXml := 8;
  ThemeAmbiance := 0; ThemeMonokai := 1; ThemeTextMate := 2
|}.

End Novile.
Import Novile.

(* ===================================================================== *)
(** ** The script language of the snippets *)
(* ===================================================================== *)

(** The facade emits expression statements only: calls of a global function
    or of a method, on string, number and boolean literals, separated by
    semicolons.  This module reads such source text the way a JavaScript
    engine does (ECMAScript 5 lexical grammar for the tokens involved,
    string escapes and automatic semicolon insertion included).  Text that
    needs more of the language than that (assignments, function
    declarations, comments, other globals of the page) is rejected here,
    where an engine would run it: what a text does is read off this module
    only for text inside the fragment, which the snippets of the facade are
    whenever the spliced arguments have nothing to escape in them. *)
Module JS.

Definition is_line_terminator (c : N) : bool :=
  bool_decide (c ∈ [10; 13; 8232; 8233]%N).       (* LF CR LS PS *)

Definition is_white_space (c : N) : bool :=
  bool_decide (c ∈ [9; 11; 12; 32; 160; 65279]%N). (* TAB VT FF SP NBSP BOM *)

Definition is_letter (c : N) : bool :=
  (((65 <=? c) && (c <=? 90)) || ((97 <=? c) && (c <=? 122)))%N.

Definition is_ident_start (c : N) : bool :=
  is_letter c || bool_decide (c = 36%N) || bool_decide (c = 95%N). (* $ _ *)

Definition is_ident_part (c : N) : bool := is_ident_start c || is_digit c.

Definition is_punctuator (c : N) : bool :=
  bool_decide (c ∈ [46; 40; 41; 44; 59; 45]%N).   (* . ( ) , ; - *)

Definition hex_value (c : N) : option N :=
  if is_digit c then Some (c - 48)%N
  else if ((97 <=? c) && (c <=? 102))%N then Some (c - 87)%N
  else if ((65 <=? c) && (c <=? 70))%N then Some (c - 55)%N
  else None.

Inductive token : Type :=
| TIdent (name : QString)
| TString (s : QString)
| TNumber (z : Z)
| TPunct (c : N).

(** A token with the flag "a line terminator stands between the previous
    token and this one", which semicolon insertion looks at. *)
Abbreviation ltoken := (bool * token)%type (only parsing).

(** Where the scanner is. Accumulated characters are kept in reverse. *)
Inductive mode : Type :=
| Between
| InIdent (acc : QString)
| InNumber (acc : Z)
| InString (quote : N) (acc : QString)
| InEscape (quote : N) (acc : QString)
| InEscapeCR (quote : N) (acc : QString)
| InHex (quote : N) (acc : QString) (todo : nat) (val : N).

Record scanner : Type := mkScanner {
  sc_mode : mode;
  sc_newline : bool;
  sc_out : list ltoken      (* in reverse *)
}.

Definition emit (t : token) (sc : scanner) : scanner :=
  {| sc_mode := Between; sc_newline := false;
     sc_out := (sc_newline sc, t) :: sc_out sc |}.

Definition enter (m : mode) (sc : scanner) : scanner :=
  {| sc_mode := m; sc_newline := sc_newline sc; sc_out := sc_out sc |}.

(** One character seen between tokens. *)
Definition scan_between (sc : scanner) (c : N) : option scanner :=
  if is_line_terminator c then
    Some {| sc_mode := Between; sc_newline := true; sc_out := sc_out sc |}
  else if is_white_space c then Some (enter Between sc)
  else if is_ident_start c then Some (enter (InIdent [c]) sc)
  else if is_digit c then Some (enter (InNumber (digit_value c)) sc)
  else if bool_decide (c = 39%N) || bool_decide (c = 34%N) then
    Some (enter (InString c []) sc)
  else if is_punctuator c then Some (emit (TPunct c) sc)
  else None.

(** The character a single-character escape stands for; digits are left
    out (octal escapes are not handled). *)
Definition escaped (c : N) : option N :=
  if is_digit c then None
  else if bool_decide (c = 110%N) then Some 10%N      (* \n *)
  else if bool_decide (c = 116%N) then Some 9%N       (* \t *)
  else if bool_decide (c = 114%N) then Some 13%N      (* \r *)
  else if bool_decide (c = 98%N) then Some 8%N        (* \b *)
  else if bool_decide (c = 102%N) then Some 12%N      (* \f *)
  else if bool_decide (c = 118%N) then Some 11%N      (* \v *)
  else Some c.

(** One character inside a string literal opened by [q]. *)
Definition scan_string (q : N) (acc : QString) (sc : scanner) (c : N)
  : option scanner :=
  if bool_decide (c = q) then Some (emit (TString (rev acc)) sc)
  else if bool_decide (c = 92%N) then Some (enter (InEscape q acc) sc)
  else if is_line_terminator c then None
  else Some (enter (InString q (c :: acc)) sc).

Definition scan (sc : scanner) (c : N) : option scanner :=
  match sc_mode sc with
  | Between => scan_between sc c
  | InIdent acc =>
      if is_ident_part c then Some (enter (InIdent (c :: acc)) sc)
      else scan_between (emit (TIdent (rev acc)) sc) c
  | InNumber acc =>
      if is_digit c then Some (enter (InNumber (10 * acc + digit_value c)) sc)
      else if is_ident_start c || bool_decide (c = 46%N) then None
      else scan_between (emit (TNumber acc) sc) c
  | InString q acc => scan_string q acc sc c
  | InEscape q acc =>
      if bool_decide (c = 120%N) then Some (enter (InHex q acc 2 0) sc)
      else if bool_decide (c = 117%N) then Some (enter (InHex q acc 4 0) sc)
      else if bool_decide (c = 13%N) then Some (enter (InEscapeCR q acc) sc)
      else if is_line_terminator c then Some (enter (InString q acc) sc)
      else match escaped c with
           | Some c' => Some (enter (InString q (c' :: acc)) sc)
           | None => None
           end
  | InEscapeCR q acc =>
      if bool_decide (c = 10%N) then Some (enter (InString q acc) sc)
      else scan_string q acc sc c
  | InHex q acc todo val =>
      match hex_value c, todo with
      | Some d, 1%nat => Some (enter (InString q ((16 * val + d)%N :: acc)) sc)
      | Some d, S todo' => Some (enter (InHex q acc todo' (16 * val + d)%N) sc)
      | _, _ => None
      end
  end.

(** End of the source text: a literal left open is an error. *)
Definition scan_end (sc : scanner) : option (list ltoken) :=
  match sc_mode sc with
  | Between => Some (rev (sc_out sc))
  | InIdent acc => Some (rev (sc_out (emit (TIdent (rev acc)) sc)))
  | InNumber acc => Some (rev (sc_out (emit (TNumber acc) sc)))
  | _ => None
  end.

Definition scan_all (sc : option scanner) (cs : QString) : option scanner :=
  foldl (fun st c => st ≫= fun sc => scan sc c) sc cs.

Definition scanner_start : scanner :=
  {| sc_mode := Between; sc_newline := false; sc_out := [] |}.

Definition tokenize (code : QString) : option (list ltoken) :=
  scan_all (Some scanner_start) code ≫= scan_end.

(** *** Expression statements *)

#[warnings="-register-all"]
Inductive expr : Type :=
| EIdent (name : QString)
| EString (s : QString)
| ENumber (z : Z)
| EBool (b : bool)
| ENeg (e : expr)
| EMember (e : expr) (name : QString)
| ECall (f : expr) (args : list expr).

Definition primary (t : token) : option expr :=
  match t with
  | TIdent name =>
      if bool_decide (name = qs "true") then Some (EBool true)
      else if bool_decide (name = qs "false") then Some (EBool false)
      else Some (EIdent name)
  | TString s => Some (EString s)
  | TNumber z => Some (ENumber z)
  | TPunct _ => None
  end.

(** Recursive descent, with the number of calls bounded by [fuel];
    [parse_program] gives enough for the token list at hand. *)
Fixpoint parse_expr (fuel : nat) (ts : list ltoken) : option (expr * list ltoken) :=
  match fuel with
  | O => None
  | S fuel' =>
      match ts with
      | (_, TPunct 45%N) :: ts' =>
          '(e, rest) ← parse_expr fuel' ts'; Some (ENeg e, rest)
      | (_, t) :: ts' => e ← primary t; parse_postfix fuel' e ts'
      | [] => None
      end
  end
with parse_postfix (fuel : nat) (e : expr) (ts : list ltoken)
  : option (expr * list ltoken) :=
  match fuel with
  | O => None
  | S fuel' =>
      match ts with
      | (_, TPunct 46%N) :: (_, TIdent name) :: ts' =>
          parse_postfix fuel' (EMember e name) ts'
      | (_, TPunct 46%N) :: _ => None
      | (_, TPunct 40%N) :: (_, TPunct 41%N) :: ts' =>
          parse_postfix fuel' (ECall e []) ts'
      | (_, TPunct 40%N) :: ts' =>
          '(args, rest) ← parse_args fuel' ts';
          parse_postfix fuel' (ECall e args) rest
      | _ => Some (e, ts)
      end
  end
with parse_args (fuel : nat) (ts : list ltoken)
  : option (list expr * list ltoken) :=
  match fuel with
  | O => None
  | S fuel' =>
      '(e, rest) ← parse_expr fuel' ts;
      match rest with
      | (_, TPunct 41%N) :: rest' => Some ([e], rest')
      | (_, TPunct 44%N) :: rest' =>
          '(es, rest'') ← parse_args fuel' rest'; Some (e :: es, rest'')
      | _ => None
      end
  end.

(** A statement ends at a semicolon, at the end of the text, or where the
    next token starts a new line (automatic semicolon insertion). *)
Fixpoint parse_statements (fuel : nat) (ts : list ltoken) : option (list expr) :=
  match fuel with
  | O => None
  | S fuel' =>
      match ts with
      | [] => Some []
      | (_, TPunct 59%N) :: ts' => parse_statements fuel' ts'
      | _ =>
          '(e, rest) ← parse_expr fuel' ts;
          match rest with
          | [] => Some [e]
          | (_, TPunct 59%N) :: rest' => (e ::.) <$> parse_statements fuel' rest'
          | (true, _) :: _ => (e ::.) <$> parse_statements fuel' rest
          | _ => None
          end
      end
  end.

Definition parse_program (code : QString) : option (list expr) :=
  ts ← tokenize code; parse_statements (3 * length ts + 3) ts.

(** *** The page the snippets run against *)

(** Modelled from the spec: the bundled page [ace.html], the helper script
    [wrapper.js] and the editor library are not among the sources.  The page
    holds one editor instance, which keeps its text, its read-only flag, its
    selection, the cursor line, the syntax mode and the theme, and a table
    of page-side properties.  The document is the text last given to the
    value-setter, which selects the whole new text and so leaves the cursor
    on its last line; the cursor line is always a line of the document. *)
Record AceEditor : Type := mkAce {
  ace_value : QString;
  ace_readOnly : bool;
  ace_selected : bool;
  ace_cursor : Z;
  ace_mode : QString;
  ace_theme : QString
}.

Inductive object : Type :=
| ObjEditor | ObjSelection | ObjSession | ObjJQuery | FunProperty.

Inductive JSValue : Type :=
| JSUndefined
| JSBool (b : bool)
| JSNumber (z : Z)
| JSString (s : QString)
| JSObject (o : object).

Record Page : Type := mkPage {
  loaded : bool;                      (* the bundled page finished loading *)
  window_objects : list QString;      (* names injected by the native side *)
  helper : bool;                      (* the helper script has been evaluated *)
  ace : AceEditor;
  props : gmap (list N) JSValue;      (* page-side properties *)
  fetched : list QString              (* scripts requested with $.getScript *)
}.

Definition fresh_editor : AceEditor :=
  {| ace_value := []; ace_readOnly := false; ace_selected := false;
     ace_cursor := 1; ace_mode := []; ace_theme := [] |}.

Definition blank_page : Page :=
  {| loaded := false; window_objects := []; helper := false;
     ace := fresh_editor; props := ∅; fetched := [] |}.

(** Modelled from the spec: "bootstrapped" is the state after the page has
    loaded, the callback object has been injected and the helper script has
    been evaluated; before that the page is not functional. *)
Definition bootstrapped (p : Page) : bool :=
  loaded p && bool_decide (qs "Novile" ∈ window_objects p) && helper p.

Definition with_ace (f : AceEditor -> AceEditor) (p : Page) : Page :=
  {| loaded := loaded p; window_objects := window_objects p;
     helper := helper p; ace := f (ace p); props := props p;
     fetched := fetched p |}.

Definition with_props (f : gmap (list N) JSValue -> gmap (list N) JSValue)
  (p : Page) : Page :=
  {| loaded := loaded p; window_objects := window_objects p;
     helper := helper p; ace := ace p; props := f (props p);
     fetched := fetched p |}.

Definition with_fetched (url : QString) (p : Page) : Page :=
  {| loaded := loaded p; window_objects := window_objects p;
     helper := helper p; ace := ace p; props := props p;
     fetched := fetched p ++ [url] |}.

(** Number of lines of a text: one more than its line breaks, CR LF
    counting once. *)
Fixpoint line_breaks (s : QString) : Z :=
  match s with
  | [] => 0
  | 13%N :: (10%N :: r) => 1 + line_breaks r
  | c :: r => (if is_line_terminator c then 1 else 0) + line_breaks r
  end.

Definition line_count (s : QString) : Z := 1 + line_breaks s.

(** An evaluation either completes with a value or throws. *)
Inductive outcome : Type :=
| Normal (v : JSValue)
| Thrown.

(** The globals of a bootstrapped page. *)
Definition global_ready (name : QString) : outcome :=
  if bool_decide (name = qs "editor") then Normal (JSObject ObjEditor)
  else if bool_decide (name = qs "$") then Normal (JSObject ObjJQuery)
  else if bool_decide (name = qs "property") then Normal (JSObject FunProperty)
  else Thrown.

(** Before the bootstrap no global of the page resolves. *)
Definition global (name : QString) (p : Page) : outcome :=
  if bool_decide (name = qs "undefined") then Normal JSUndefined
  else if bootstrapped p then global_ready name
  else Thrown.

Definition member (v : JSValue) (name : QString) : outcome :=
  match v with
  | JSObject ObjEditor =>
      if bool_decide (name = qs "selection") then Normal (JSObject ObjSelection)
      else if bool_decide (name = qs "session") then Normal (JSObject ObjSession)
      else Thrown
  | _ => Thrown
  end.

Definition truthy (v : JSValue) : bool :=
  match v with
  | JSUndefined => false
  | JSBool b => b
  | JSNumber z => negb (z =? 0)
  | JSString s => negb (bool_decide (s = []))
  | JSObject _ => true
  end.

(** Modelled from the spec: [property(name)] reads a page-side property and
    [property(name, value)] writes one.  "lines" and "text" are not cached:
    reading them asks the live editor. *)
Definition call_property (args : list JSValue) (p : Page) : outcome * Page :=
  match args with
  | [JSString name] =>
      if bool_decide (name = qs "lines") then
        (Normal (JSNumber (line_count (ace_value (ace p)))), p)
      else if bool_decide (name = qs "text") then
        (Normal (JSString (ace_value (ace p))), p)
      else (Normal (default JSUndefined (props p !! name)), p)
  | JSString name :: v :: _ =>
      (Normal JSUndefined, with_props (insert name v) p)
  | _ => (Thrown, p)
  end.

Definition clip (lo hi z : Z) : Z := Z.max lo (Z.min hi z).

(** Modelled from the spec: the methods of the editor library that the
    snippets call, on the values the facade passes. *)
Definition call_method (o : object) (name : QString) (args : list JSValue)
  (p : Page) : outcome * Page :=
  let a := ace p in
  let set (a' : AceEditor) := (Normal JSUndefined, with_ace (fun _ => a') p) in
  match o with
  | ObjEditor =>
      if bool_decide (name = qs "setValue") then
        match args with
        | JSString s :: _ =>
            (Normal (JSString s),
             with_ace (fun _ => mkAce s (ace_readOnly a) true (line_count s)
                                  (ace_mode a) (ace_theme a)) p)
        | _ => (Thrown, p)
        end
      else if bool_decide (name = qs "gotoLine") then
        match args with
        | JSNumber n :: _ =>
            set (mkAce (ace_value a) (ace_readOnly a) false
                   (clip 1 (line_count (ace_value a)) n)
                   (ace_mode a) (ace_theme a))
        | _ => (Thrown, p)
        end
      else if bool_decide (name = qs "setReadOnly") then
        set (mkAce (ace_value a) (truthy (default JSUndefined (head args)))
               (ace_selected a) (ace_cursor a) (ace_mode a) (ace_theme a))
      else if bool_decide (name = qs "setTheme") then
        match args with
        | JSString s :: _ =>
            set (mkAce (ace_value a) (ace_readOnly a) (ace_selected a)
                   (ace_cursor a) (ace_mode a) s)
        | _ => (Thrown, p)
        end
      else if bool_decide (name = qs "getSession") then
        (Normal (JSObject ObjSession), p)
      else (Thrown, p)
  | ObjSelection =>
      if bool_decide (name = qs "clearSelection") then
        set (mkAce (ace_value a) (ace_readOnly a) false (ace_cursor a)
               (ace_mode a) (ace_theme a))
      else (Thrown, p)
  | ObjSession =>
      if bool_decide (name = qs "setMode") then
        match args with
        | JSString s :: _ =>
            set (mkAce (ace_value a) (ace_readOnly a) (ace_selected a)
                   (ace_cursor a) s (ace_theme a))
        | _ => (Thrown, p)
        end
      else (Thrown, p)
  | ObjJQuery =>
      if bool_decide (name = qs "getScript") then
        match args with
        | JSString url :: _ => (Normal JSUndefined, with_fetched url p)
        | _ => (Thrown, p)
        end
      else (Thrown, p)
  | FunProperty => (Thrown, p)
  end.

(** Evaluation of one expression.  What an earlier part of the expression
    did stays done when a later part throws. *)
Fixpoint eval (e : expr) (p : Page) {struct e} : outcome * Page :=
  let eval_args :=
    fix eval_args (es : list expr) (p : Page) : option (list JSValue) * Page :=
      match es with
      | [] => (Some [], p)
      | e :: es' =>
          match eval e p with
          | (Normal v, p1) =>
              let '(r, p2) := eval_args es' p1 in ((v ::.) <$> r, p2)
          | (Thrown, p1) => (None, p1)
          end
      end in
  match e with
  | EIdent name => (global name p, p)
  | EString s => (Normal (JSString s), p)
  | ENumber z => (Normal (JSNumber z), p)
  | EBool b => (Normal (JSBool b), p)
  | ENeg e1 =>
      match eval e1 p with
      | (Normal (JSNumber z), p1) => (Normal (JSNumber (- z)), p1)
      | (_, p1) => (Thrown, p1)
      end
  | EMember e1 name =>
      match eval e1 p with
      | (Normal v, p1) => (member v name, p1)
      | (Thrown, p1) => (Thrown, p1)
      end
  | ECall (EMember e1 name) args =>
      match eval e1 p with
      | (Normal (JSObject o), p1) =>
          match eval_args args p1 with
          | (Some vs, p2) => call_method o name vs p2
          | (None, p2) => (Thrown, p2)
          end
      | (_, p1) => (Thrown, p1)
      end
  | ECall f args =>
      match eval f p with
      | (Normal (JSObject FunProperty), p1) =>
          match eval_args args p1 with
          | (Some vs, p2) => call_property vs p2
          | (None, p2) => (Thrown, p2)
          end
      | (_, p1) => (Thrown, p1)
      end
  end.

(** The arguments of a call, left to right: the local function of [eval],
    on its own. *)
Fixpoint eval_args (es : list expr) (p : Page) : option (list JSValue) * Page :=
  match es with
  | [] => (Some [], p)
  | e :: es' =>
      match eval e p with
      | (Normal v, p1) =>
          let '(r, p2) := eval_args es' p1 in ((v ::.) <$> r, p2)
      | (Thrown, p1) => (None, p1)
      end
  end.

(** The part of a page that scripts of this language cannot change. *)
Definition boot (p : Page) : bool * list QString * bool :=
  (loaded p, window_objects p, helper p).

(** A character that stands for itself inside a literal quoted by [q]. *)
Definition plain (q c : N) : Prop :=
  c <> q /\ c <> 92%N /\ is_line_terminator c = false.

(** A program: its statements in order, up to the first that throws; the
    value is that of the last statement. *)
Fixpoint eval_statements (es : list expr) (last : JSValue) (p : Page)
  : outcome * Page :=
  match es with
  | [] => (Normal last, p)
  | e :: es' =>
      match eval e p with
      | (Normal v, p1) => eval_statements es' v p1
      | (Thrown, p1) => (Thrown, p1)
      end
  end.

(** Source text is parsed as a whole before any of it runs: text with a
    syntax error does nothing. *)
Definition eval_source (code : QString) (p : Page) : outcome * Page :=
  match parse_program code with
  | Some es => eval_statements es JSUndefined p
  | None => (Thrown, p)
  end.

End JS.

(* ===================================================================== *)
(** ** The web view *)
(* ===================================================================== *)

Module WebView.
Import JS.

(** Which bundled resources can be read, by the address the code uses. *)
Definition Resources : Type := QString -> bool.

Definition to_variant (r : outcome) : QVariant :=
  match r with
  | Normal JSUndefined => VInvalid
  | Normal (JSBool b) => VBool b
  | Normal (JSNumber z) => VNumber z
  | Normal (JSString s) => VString s
  | Normal (JSObject _) => VOther
  | Thrown => VInvalid
  end.

Definition load_page (ok : bool) : Page :=
  {| loaded := ok; window_objects := []; helper := false;
     ace := fresh_editor; props := ∅; fetched := [] |}.

Definition inject (name : QString) (p : Page) : Page :=
  {| loaded := loaded p; window_objects := name :: window_objects p;
     helper := helper p; ace := ace p; props := props p;
     fetched := fetched p |}.

Definition install_helper (p : Page) : Page :=
  {| loaded := loaded p; window_objects := window_objects p;
     helper := loaded p; ace := ace p; props := props p;
     fetched := fetched p |}.

(** [QWebFrame::evaluateJavaScript]: a script that fails gives an invalid
    variant; nothing is raised to the caller. *)
Definition evaluateJavaScript (code : Script) (p : Page) : QVariant * Page :=
  match code with
  | Snippet src => let '(r, p') := eval_source src p in (to_variant r, p')
  | ResourceScript path =>
      if bool_decide (path = qs ":/html/wrapper.js")
      then (VInvalid, install_helper p)
      else (VInvalid, p)
  end.

(** The web view answering the calls of [EditorPrivate]. *)
Definition webview (env : Resources) : handler Page :=
  fun X c =>
    match c in call T return Page -> T * Page with
    | Load url => fun _ =>
        let ok := env (url_text url) in (ok, load_page ok)
    | AddToJavaScriptWindowObject name => fun p => (tt, inject name p)
    | OpenResource path => fun p =>
        ((if env path then Some (ResourceScript path) else None), p)
    | EvaluateJavaScript code => evaluateJavaScript code
    end.

(** The page of an editor whose bootstrap went through. *)
Definition ready_page : Page :=
  install_helper (inject (qs "Novile") (load_page true)).

(** All resources present, and the helper script missing. *)
Definition all_resources : Resources := fun _ => true.

Definition without_helper : Resources :=
  fun path => negb (bool_decide (path = qs ":/html/wrapper.js")).

Definition no_resources : Resources := fun _ => false.

End WebView.
Import WebView.


(* ===================================================================== *)
(** ** What the documentation says, in the terms above *)
(* ===================================================================== *)

Module Documented.
Import JS.

(** The documented identifier of each highlight mode and of each theme. *)
Definition mode_identifiers `{EditorHeader} : list (HighlightMode * QString) :=
  [(ModeCpp, qs "c_cpp"); (ModeCss, qs "css"); (ModeHtml, qs "html");
   (ModeJavaScript, qs "javascript"); (ModePascal, qs "pascal");
   (ModePhp, qs "php"); (ModePython, qs "python"); (ModeRuby, qs "ruby");
   (ModeXml, qs "xml")].

Definition theme_identifiers `{EditorHeader} : list (Theme * QString) :=
  [(ThemeAmbiance, qs "ambiance"); (ThemeMonokai, qs "monokai");
   (ThemeTextMate, qs "textmate")].

(** The documented resource of an identifier: [mode-<id>.js] and
    [theme-<id>.js] under [qrc:/ace/]. *)
Definition mode_resource (id : QString) : QUrl :=
  mkQUrl (qs "qrc:/ace/mode-" ++ id ++ qs ".js").

Definition theme_resource (id : QString) : QUrl :=
  mkQUrl (qs "qrc:/ace/theme-" ++ id ++ qs ".js").

(** The snippet that loads a script resource and then makes [id] the
    active syntax mode, or the active theme. *)
Definition mode_request (id : QString) : Script :=
  Snippet (qs "$.getScript('" ++ url_text (mode_resource id) ++ qs "');"
           ++ qs "editor.getSession().setMode('ace/mode/" ++ id ++ qs "');").

Definition theme_request (id : QString) : Script :=
  Snippet (qs "$.getScript('" ++ url_text (theme_resource id) ++ qs "');"
           ++ qs "editor.setTheme('ace/theme/" ++ id ++ qs "');").

(** The snippet of [gotoLine], and the expression a decimal number reads
    as: the digits, under a minus sign when negative. *)
Definition gotoLine_snippet (n : Z) : QString :=
  qs "editor.gotoLine(" ++ QString_number n ++ qs ")".

Definition number_literal (n : Z) : expr :=
  if n <? 0 then ENeg (ENumber (- n)) else ENumber n.

(** The value of decimal digits read from the left, starting from [acc]. *)
Fixpoint horner (acc : N) (d : Decimal.uint) : N :=
  match d with
  | Decimal.Nil => acc
  | Decimal.D0 d => horner (10 * acc) d
  | Decimal.D1 d => horner (10 * acc + 1) d
  | Decimal.D2 d => horner (10 * acc + 2) d
  | Decimal.D3 d => horner (10 * acc + 3) d
  | Decimal.D4 d => horner (10 * acc + 4) d
  | Decimal.D5 d => horner (10 * acc + 5) d
  | Decimal.D6 d => horner (10 * acc + 6) d
  | Decimal.D7 d => horner (10 * acc + 7) d
  | Decimal.D8 d => horner (10 * acc + 8) d
  | Decimal.D9 d => horner (10 * acc + 9) d
  end%N.

(** The snippet of [setText]. *)
Definition setText_snippet (s : QString) : QString :=
  qs "editor.setValue('" ++ s ++ qs "')".

(** "A well-formed call passing [s] as a single string literal": the source
    text is one statement, the call of [editor.setValue] on one string
    literal whose value is [s]. *)
Definition passes_literal (code s : QString) : Prop :=
  parse_program code
  = Some [ECall (EMember (EIdent (qs "editor")) (qs "setValue")) [EString s]].

(** Text free of quote and backslash characters. *)
Definition quote_free (s : QString) : Prop :=
  Forall (fun c => c <> 39%N /\ c <> 34%N /\ c <> 92%N) s.

(** Text that can stand between quotes as it is: free of quotes,
    backslashes and line terminators. *)
Definition literal_safe (s : QString) : Prop :=
  Forall (fun c => c <> 39%N /\ c <> 34%N /\ c <> 92%N
                   /\ is_line_terminator c = false) s.

(** The bootstrap as documented: the page load has completed, then the
    callback object was injected, then the helper script was evaluated. *)
Definition bootstrap_events : list event :=
  [LoadFinished (mkQUrl (qs "qrc:/html/ace.html")) true;
   Injected (qs "Novile");
   Opened (qs ":/html/wrapper.js") true;
   Evaluated (ResourceScript (qs ":/html/wrapper.js"))].

Definition is_snippet (e : event) : bool :=
  match e with Evaluated (Snippet _) => true | _ => false end.

(** Every evaluation of facade source text comes after the whole bootstrap. *)
Definition bootstrap_first (evs : list event) : Prop :=
  forall before e after,
    evs = before ++ e :: after -> is_snippet e = true ->
    bootstrap_events `sublist_of` before.

(** Every evaluation of facade source text finds the page bootstrapped. *)
Definition on_bootstrapped_page (log : list (Page * event)) : Prop :=
  Forall (fun '(p, e) => is_snippet e = true -> bootstrapped p = true) log.

End Documented.
Import Documented.

(* ===================================================================== *)
(** ** The notifications of [EditorPrivate] *)
(* ===================================================================== *)

Module Signals.

(** The signals of the two classes; a signal is emitted with the values of
    its parameters. *)
Inductive signal_name : Type :=
| EditorPrivate_linesChanged
| EditorPrivate_textChanged
| Editor_linesChanged
| Editor_textChanged.

#[global] Instance signal_name_eq_dec : EqDecision signal_name.
Proof. solve_decision. Defined.

Abbreviation emission := (signal_name * list Z)%type (only parsing).

(** A connection of a signal to a signal: when the first is emitted the
    second is emitted with the same values. *)
Abbreviation connection := (signal_name * signal_name)%type (only parsing).

(** The two [connect] calls of the [EditorPrivate] constructor, in order. *)
Definition EditorPrivate_connections : list connection :=
  [(EditorPrivate_linesChanged, Editor_linesChanged);
   (EditorPrivate_textChanged, Editor_textChanged)].

(** [emit] of a signal of [EditorPrivate]: every connection from it fires,
    in the order the connections were made. *)
Definition emit (conns : list connection) (e : emission) : list emission :=
  omap (fun c : connection =>
          if bool_decide (c.1 = e.1) then Some (c.2, e.2) else None) conns.

(** What the page calls on the injected object. *)
Inductive callback : Type :=
| onLinesChanged (lines : Z)
| onTextChanged.

(** The two slots, each emitting the signal of [EditorPrivate]. *)
Definition slot (conns : list connection) (c : callback) : list emission :=
  match c with
  | onLinesChanged lines => emit conns (EditorPrivate_linesChanged, [lines])
  | onTextChanged => emit conns (EditorPrivate_textChanged, [])
  end.

(** The notifications an owner of the editor receives for the callbacks
    the page makes, one after the other. *)
Definition notifications (cs : list callback) : list emission :=
  cs ≫= slot EditorPrivate_connections.

End Signals.

(* ===================================================================== *)
(** ** Texts used below *)
(* ===================================================================== *)

Module Texts.

(** The request of the name-and-address overloads, for the text of the
    address and the name. *)
Definition mode_request_text (url name : QString) : QString :=
  qs "$.getScript('" ++ url ++ qs "');"
  ++ qs "editor.getSession().setMode('ace/mode/" ++ name ++ qs "');".

Definition theme_request_text (url name : QString) : QString :=
  qs "$.getScript('" ++ url ++ qs "');"
  ++ qs "editor.setTheme('ace/theme/" ++ name ++ qs "');".

(** A text that closes the literal of [setText], adds a statement of its
    own and opens the literal again. *)
Definition smuggle (a b : QString) : QString :=
  a ++ qs "');editor.setReadOnly(true);editor.setValue('" ++ b.

(** The editor with another text, nothing selected and the cursor on the
    last line of the text. *)
Definition with_text (s : QString) (a : JS.AceEditor) : JS.AceEditor :=
  JS.mkAce s (JS.ace_readOnly a) false (JS.line_count s) (JS.ace_mode a)
    (JS.ace_theme a).

Definition with_mode (m : QString) (a : JS.AceEditor) : JS.AceEditor :=
  JS.mkAce (JS.ace_value a) (JS.ace_readOnly a) (JS.ace_selected a)
    (JS.ace_cursor a) m (JS.ace_theme a).

Definition with_theme (t : QString) (a : JS.AceEditor) : JS.AceEditor :=
  JS.mkAce (JS.ace_value a) (JS.ace_readOnly a) (JS.ace_selected a)
    (JS.ace_cursor a) (JS.ace_mode a) t.

Definition with_readOnly (b : bool) (a : JS.AceEditor) : JS.AceEditor :=
  JS.mkAce (JS.ace_value a) b (JS.ace_selected a) (JS.ace_cursor a)
    (JS.ace_mode a) (JS.ace_theme a).

(** The cursor is on a line of the document. *)
Definition cursor_in_document (p : JS.Page) : Prop :=
  1 <= JS.ace_cursor (JS.ace p) <= JS.line_count (JS.ace_value (JS.ace p)).

(** An evaluation that completed with an object. *)
Definition is_object (r : JS.outcome) : bool :=
  match r with JS.Normal (JS.JSObject _) => true | _ => false end.

(** The first entry of a table for a value, as a [switch] written as a
    chain of tests finds it. *)
Fixpoint first_match (v : Z) (table : list (Z * QString)) : option QString :=
  match table with
  | [] => None
  | (k, id) :: table' => if v =? k then Some id else first_match v table'
  end.

(** Arguments with nothing to escape in them: the text of [setText], and
    the name and the address of the name-and-address overloads. *)
Definition escape_free (o : operation) : Prop :=
  match o with
  | CallSetText s => Forall (JS.plain 39%N) s
  | CallSetHighlightModeNameUrl name url
  | CallSetThemeNameUrl name url =>
      Forall (JS.plain 39%N) name /\ Forall (JS.plain 39%N) (QUrl_toString url)
  | _ => True
  end.

(** What an operation does to a bootstrapped page, written directly on the
    page. *)
Definition effect `{EditorHeader} (o : operation) (p : JS.Page) : JS.Page :=
  match o with
  | CallLines | CallText | CallIsReadOnly => p
  | CallGotoLine n =>
      JS.with_ace
        (fun a => JS.mkAce (JS.ace_value a) (JS.ace_readOnly a) false
                    (JS.clip 1 (JS.line_count (JS.ace_value a)) n)
                    (JS.ace_mode a) (JS.ace_theme a)) p
  | CallSetText s => JS.with_ace (with_text s) p
  | CallSetReadOnly true =>
      JS.with_ace (with_readOnly true)
        (JS.with_props (insert (qs "readonly") (JS.JSBool true)) p)
  | CallSetReadOnly false => p
  | CallSetHighlightMode mode =>
      match first_match mode mode_identifiers with
      | Some id =>
          JS.with_ace (with_mode (qs "ace/mode/" ++ id))
            (JS.with_fetched (QUrl_toString (mode_resource id)) p)
      | None => p
      end
  | CallSetHighlightModeNameUrl name url =>
      JS.with_ace (with_mode (qs "ace/mode/" ++ name))
        (JS.with_fetched (QUrl_toString url) p)
  | CallSetTheme theme =>
      match first_match theme theme_identifiers with
      | Some id =>
          JS.with_ace (with_theme (qs "ace/theme/" ++ id))
            (JS.with_fetched (QUrl_toString (theme_resource id)) p)
      | None => p
      end
  | CallSetThemeNameUrl name url =>
      JS.with_ace (with_theme (qs "ace/theme/" ++ name))
        (JS.with_fetched (QUrl_toString url) p)
  end.

Definition is_setText (o : operation) : bool :=
  match o with CallSetText _ => true | _ => false end.

(** The page-side property and the flag of the editor both say read-only. *)
Definition read_only (p : JS.Page) : Prop :=
  JS.props p !! qs "readonly" = Some (JS.JSBool true)
  /\ JS.ace_readOnly (JS.ace p) = true.

(** The calls a public operation may make: evaluations of source text. *)
Definition only_snippets (evs : list event) : Prop :=
  Forall (fun e => is_snippet e = true) evs.

End Texts.
Import Texts.

(* ===================================================================== *)
(** ** Running programs *)
(* ===================================================================== *)

Section RunFacts.
Context {S : Type} (h : handler S).

Lemma run_bind {A B : Type} (p : prog A) (f : A -> prog B) (s : S) :
  run h (p ≫= f) s
  = let '(a, s1, l1) := run h p s in
    let '(b, s2, l2) := run h (f a) s1 in
    (b, s2, l1 ++ l2).
Proof.
  revert s. induction p as [a | X c k IH]; intros s.
  - cbn. destruct (run h (f a) s) as [[b s2] l2]. reflexivity.
  - change (run h (Vis c k ≫= f) s)
      with (let '(x, s1) := h _ c s in
            let '(a, s2, log) := run h (k x ≫= f) s1 in
            (a, s2, (s, event_of c x) :: log)).
    cbn. destruct (h _ c s) as [x s1]. rewrite IH.
    destruct (run h (k x) s1) as [[a s2] l1].
    destruct (run h (f a) s2) as [[b s3] l2]. reflexivity.
Qed.

Lemma run_evaluate {A : Type} (code : Script) (k : QVariant -> prog A) (s : S) :
  run h (executeJavaScript code ≫= k) s
  = let '(v, s1) := h _ (EvaluateJavaScript code) s in
    let '(a, s2, log) := run h (k v) s1 in
    (a, s2, (s, Evaluated code) :: log).
Proof. reflexivity. Qed.

Lemma history_bind {A B : Type} (p : prog A) (f : A -> prog B) (s : S) :
  history h (p ≫= f) s
  = history h p s ++ history h (f (result h p s)) (final h p s).
Proof.
  unfold history, result, final. rewrite run_bind.
  destruct (run h p s) as [[a s1] l1]. cbn.
  destruct (run h (f a) s1) as [[b s2] l2]. reflexivity.
Qed.

Lemma final_bind {A B : Type} (p : prog A) (f : A -> prog B) (s : S) :
  final h (p ≫= f) s = final h (f (result h p s)) (final h p s).
Proof.
  unfold result, final. rewrite run_bind.
  destruct (run h p s) as [[a s1] l1]. cbn.
  destruct (run h (f a) s1) as [[b s2] l2]. reflexivity.
Qed.

Lemma result_bind {A B : Type} (p : prog A) (f : A -> prog B) (s : S) :
  result h (p ≫= f) s = result h (f (result h p s)) (final h p s).
Proof.
  unfold result, final. rewrite run_bind.
  destruct (run h p s) as [[a s1] l1]. cbn.
  destruct (run h (f a) s1) as [[b s2] l2]. reflexivity.
Qed.
End RunFacts.

Lemma snippets_only_bind {A B : Type} (p : prog A) (f : A -> prog B) :
  snippets_only p -> (forall a, snippets_only (f a)) -> snippets_only (p ≫= f).
Proof.
  intros Hp Hf. induction Hp as [a | code k Hk IH].
  - apply Hf.
  - change (snippets_only
              (Vis (EvaluateJavaScript (Snippet code)) (fun v => k v ≫= f))).
    constructor. exact IH.
Qed.

Lemma executeJavaScript_snippets_only (code : QString) :
  snippets_only (executeJavaScript (Snippet code)).
Proof. constructor. intros v. constructor. Qed.

Create HintDb facade.
#[local] Hint Resolve snippets_only_bind executeJavaScript_snippets_only : facade.
#[local] Hint Constructors snippets_only : facade.

(** Deciding a [switch]: the case labels are pairwise different. *)
Ltac split_labels H :=
  repeat match type of H with
         | NoDup (_ :: _) => apply NoDup_cons in H as [? H]
         end;
  repeat match goal with
         | N : _ ∉ _ :: _ |- _ => apply not_elem_of_cons in N as [? N]
         end.

Ltac decide_cases :=
  repeat match goal with
         | |- context [?a =? ?b] =>
             first [ rewrite (Z.eqb_refl a)
                   | replace (a =? b) with false
                       by (symmetry; apply Z.eqb_neq; congruence) ]
         end.

(* ===================================================================== *)
(** ** The facade, whatever the web view *)
(* ===================================================================== *)

Example QString_number_examples :
  QString_number 0 = qs "0" /\ QString_number (-5) = qs "-5"
  /\ QString_number 1234 = qs "1234".
Proof. vm_compute. auto. Qed.

(** C9: a [HighlightMode] value that is none of the nine enumerators makes
    [setHighlightMode] return without any call on the web view, so without
    any evaluation and with the state as it was; likewise [setTheme] on a
    [Theme] value that is none of its three enumerators. *)
Theorem outside_enumeration_no_op `{EditorHeader} :
  forall (S : Type) (h : handler S) (s : S),
    (forall mode : HighlightMode,
        mode ∉ mode_labels -> run h (setHighlightMode mode) s = (tt, s, []))
    /\ (forall theme : Theme,
        theme ∉ theme_labels -> run h (setTheme theme) s = (tt, s, [])).
Proof.
  intros S h s. split.
  - intros mode Hm. unfold mode_labels in Hm.
    repeat (apply not_elem_of_cons in Hm as [? Hm]).
    unfold setHighlightMode. decide_cases. reflexivity.
  - intros theme Ht. unfold theme_labels in Ht.
    repeat (apply not_elem_of_cons in Ht as [? Ht]).
    unfold setTheme. decide_cases. reflexivity.
Qed.

Lemma outside_enumeration_no_op_witness :
  run (webview all_resources) (@setHighlightMode default_header 9) JS.blank_page
  = (tt, JS.blank_page, [])
  /\ run (webview all_resources) (@setTheme default_header 3) JS.blank_page
     = (tt, JS.blank_page, []).
Proof.
  destruct (@outside_enumeration_no_op default_header _
              (webview all_resources) JS.blank_page) as [Hm Ht].
  split.
  - apply (Hm 9). vm_compute. intros Hin.
    repeat (apply elem_of_cons in Hin as [Hin | Hin]; [discriminate Hin |]).
    apply elem_of_nil in Hin. exact Hin.
  - apply (Ht 3). vm_compute. intros Hin.
    repeat (apply elem_of_cons in Hin as [Hin | Hin]; [discriminate Hin |]).
    apply elem_of_nil in Hin. exact Hin.
Defined.

Lemma setHighlightMode_name_url_events (name : QString) (url : QUrl)
  (S : Type) (h : handler S) (s : S) :
  events h (setHighlightMode_name_url name url) s
  = [Evaluated (Snippet (qs "$.getScript('" ++ url_text url ++ qs "');"
       ++ qs "editor.getSession().setMode('ace/mode/" ++ name ++ qs "');"))].
Proof.
  unfold events, history, setHighlightMode_name_url, QUrl_toString.
  rewrite run_evaluate.
  destruct (h _ _ s) as [v s1]. cbn. rewrite <- !app_assoc. reflexivity.
Qed.

Lemma setTheme_name_url_events (name : QString) (url : QUrl)
  (S : Type) (h : handler S) (s : S) :
  events h (setTheme_name_url name url) s
  = [Evaluated (Snippet (qs "$.getScript('" ++ url_text url ++ qs "');"
       ++ qs "editor.setTheme('ace/theme/" ++ name ++ qs "');"))].
Proof.
  unfold events, history, setTheme_name_url, QUrl_toString.
  rewrite run_evaluate.
  destruct (h _ _ s) as [v s1]. cbn. rewrite <- !app_assoc. reflexivity.
Qed.

(** C5: each of the nine enumerated highlight modes resolves to its
    documented identifier and resource: under every web view,
    [setHighlightMode mode] makes one call, the evaluation of the snippet
    that fetches [qrc:/ace/mode-<id>.js] and sets the mode [ace/mode/<id>],
    where [<id>] is the identifier documented for the mode ([ModeCpp] gives
    "c_cpp", [ModeCss] "css", and so on through [ModeXml] "xml"). *)
Theorem setHighlightMode_resolves `{EditorHeader} :
  NoDup mode_labels ->
  Forall (fun '(mode, id) =>
            forall (S : Type) (h : handler S) (s : S),
              events h (setHighlightMode mode) s = [Evaluated (mode_request id)])
         mode_identifiers.
Proof.
  intros Hd. unfold mode_labels in Hd. split_labels Hd.
  unfold mode_identifiers.
  repeat apply Forall_cons_2; try apply Forall_nil_2;
    intros S h s; unfold setHighlightMode; decide_cases;
    rewrite setHighlightMode_name_url_events; reflexivity.
Qed.

Lemma default_mode_labels_distinct : NoDup (@mode_labels default_header).
Proof. apply (bool_decide_unpack _). vm_compute. exact I. Defined.

Lemma default_theme_labels_distinct : NoDup (@theme_labels default_header).
Proof. apply (bool_decide_unpack _). vm_compute. exact I. Defined.

Lemma setHighlightMode_resolves_witness :
  NoDup (@mode_labels default_header)
  /\ Forall (fun '(mode, id) =>
               forall (S : Type) (h : handler S) (s : S),
                 events h (@setHighlightMode default_header mode) s
                 = [Evaluated (mode_request id)])
            (@mode_identifiers default_header).
Proof.
  split.
  - exact default_mode_labels_distinct.
  - apply (@setHighlightMode_resolves default_header).
    exact default_mode_labels_distinct.
Defined.

Example setHighlightMode_cpp_snippet :
  mode_request (qs "c_cpp")
  = Snippet (qs "$.getScript('qrc:/ace/mode-c_cpp.js');editor.getSession().setMode('ace/mode/c_cpp');").
Proof. vm_compute. reflexivity. Qed.

(** C6: each of the three enumerated themes resolves to its documented
    identifier and resource: under every web view, [setTheme theme] makes
    one call, the evaluation of the snippet that fetches
    [qrc:/ace/theme-<id>.js] and sets the theme [ace/theme/<id>], where
    [<id>] is "ambiance", "monokai" or "textmate" for [ThemeAmbiance],
    [ThemeMonokai] and [ThemeTextMate]. *)
Theorem setTheme_resolves `{EditorHeader} :
  NoDup theme_labels ->
  Forall (fun '(theme, id) =>
            forall (S : Type) (h : handler S) (s : S),
              events h (setTheme theme) s = [Evaluated (theme_request id)])
         theme_identifiers.
Proof.
  intros Hd. unfold theme_labels in Hd. split_labels Hd.
  unfold theme_identifiers.
  repeat apply Forall_cons_2; try apply Forall_nil_2;
    intros S h s; unfold setTheme; decide_cases;
    rewrite setTheme_name_url_events; reflexivity.
Qed.

Lemma setTheme_resolves_witness :
  NoDup (@theme_labels default_header)
  /\ Forall (fun '(theme, id) =>
               forall (S : Type) (h : handler S) (s : S),
                 events h (@setTheme default_header theme) s
                 = [Evaluated (theme_request id)])
            (@theme_identifiers default_header).
Proof.
  split.
  - exact default_theme_labels_distinct.
  - apply (@setTheme_resolves default_header).
    exact default_theme_labels_distinct.
Defined.

Example setTheme_monokai_snippet :
  theme_request (qs "monokai")
  = Snippet (qs "$.getScript('qrc:/ace/theme-monokai.js');editor.setTheme('ace/theme/monokai');").
Proof. vm_compute. reflexivity. Qed.

(** On a bootstrapped page the two requests reach the editor. *)
Example mode_and_theme_on_ready_page :
  let p := final (webview all_resources)
             (@setHighlightMode default_header 0;; @setTheme default_header 1)
             ready_page in
  JS.ace_mode (JS.ace p) = qs "ace/mode/c_cpp"
  /\ JS.ace_theme (JS.ace p) = qs "ace/theme/monokai"
  /\ JS.fetched p = [qs "qrc:/ace/mode-c_cpp.js"; qs "qrc:/ace/theme-monokai.js"].
Proof. vm_compute. auto. Qed.

(** Both sides are the same program once the [switch] is decided. *)
Ltac same_program unfold_switch :=
  match goal with
  | |- ?l = ?r /\ _ =>
      let E := fresh "E" in
      assert (l = r) as E
        by (unfold_switch; decide_cases; f_equal; vm_compute; reflexivity);
      split; [exact E | intros ? ? ?; rewrite E; reflexivity]
  end.

(** C10: for every enumerated mode, the enumeration overload is the same
    program as the name-and-address overload applied to the documented
    identifier and resource of that mode, so under every web view and in
    every state both give the same result, final state and calls; likewise
    for every enumerated theme. *)
Theorem enumeration_overload_refines `{EditorHeader} :
  NoDup mode_labels -> NoDup theme_labels ->
  Forall (fun '(mode, id) =>
            setHighlightMode mode
            = setHighlightMode_name_url id (mode_resource id)
            /\ forall (S : Type) (h : handler S) (s : S),
                 run h (setHighlightMode mode) s
                 = run h (setHighlightMode_name_url id (mode_resource id)) s)
         mode_identifiers
  /\ Forall (fun '(theme, id) =>
               setTheme theme = setTheme_name_url id (theme_resource id)
               /\ forall (S : Type) (h : handler S) (s : S),
                    run h (setTheme theme) s
                    = run h (setTheme_name_url id (theme_resource id)) s)
            theme_identifiers.
Proof.
  intros Hm Ht. unfold mode_labels in Hm. unfold theme_labels in Ht.
  split_labels Hm. split_labels Ht. split.
  - unfold mode_identifiers.
    repeat apply Forall_cons_2; try apply Forall_nil_2;
      same_program ltac:(unfold setHighlightMode).
  - unfold theme_identifiers.
    repeat apply Forall_cons_2; try apply Forall_nil_2;
      same_program ltac:(unfold setTheme).
Qed.

Lemma enumeration_overload_refines_witness :
  (NoDup (@mode_labels default_header) /\ NoDup (@theme_labels default_header))
  /\ @setHighlightMode default_header 6
     = setHighlightMode_name_url (qs "python") (mode_resource (qs "python"))
  /\ @setTheme default_header 1
     = setTheme_name_url (qs "monokai") (theme_resource (qs "monokai")).
Proof.
  split; [split; [exact default_mode_labels_distinct
                 | exact default_theme_labels_distinct] |].
  destruct (@enumeration_overload_refines default_header
              default_mode_labels_distinct default_theme_labels_distinct)
    as [Hm Ht].
  split.
  - apply (proj1 (Forall_forall _ _) Hm (6, qs "python")).
    apply (bool_decide_unpack _). vm_compute. exact I.
  - apply (proj1 (Forall_forall _ _) Ht (1, qs "monokai")).
    apply (bool_decide_unpack _). vm_compute. exact I.
Defined.

(** C2: for every string [s], [setText s] evaluates exactly the text
    [editor.setValue('] followed by [s] followed by [')], with nothing
    escaped, and then the snippet that clears the selection; so there is a
    string with a single quote, and one with a backslash, for which that
    text is not a well-formed call passing the string as one literal. *)
Theorem setText_splices_unescaped :
  (forall (s : QString) (S : Type) (h : handler S) (st : S),
      evaluated (events h (setText s) st)
      = [Snippet (qs "editor.setValue('" ++ s ++ qs "')");
         Snippet (qs "editor.selection.clearSelection()")])
  /\ (exists s : QString,
        39%N ∈ s /\ ~ passes_literal (qs "editor.setValue('" ++ s ++ qs "')") s)
  /\ (exists s : QString,
        92%N ∈ s /\ ~ passes_literal (qs "editor.setValue('" ++ s ++ qs "')") s).
Proof.
  split; [| split].
  - intros s S h st. unfold events, history, setText.
    rewrite run_evaluate. destruct (h _ _ st) as [v1 s1].
    rewrite run_evaluate. destruct (h _ _ s1) as [v2 s2]. reflexivity.
  - exists (qs "it's"). split.
    + apply (bool_decide_unpack _). vm_compute. exact I.
    + unfold passes_literal. vm_compute. discriminate.
  - exists (qs "C:\temp"). split.
    + apply (bool_decide_unpack _). vm_compute. exact I.
    + unfold passes_literal. vm_compute. discriminate.
Qed.

Example setText_quote_is_syntax_error :
  JS.parse_program (setText_snippet (qs "it's")) = None.
Proof. vm_compute. reflexivity. Qed.

Example setText_backslash_changes_text :
  JS.parse_program (setText_snippet (qs "C:\temp"))
  = Some [JS.ECall (JS.EMember (JS.EIdent (qs "editor")) (qs "setValue"))
            [JS.EString (qs "C:" ++ [9%N] ++ qs "emp")]].
Proof. vm_compute. reflexivity. Qed.

Example setText_trailing_backslash_is_syntax_error :
  JS.parse_program (setText_snippet (qs "dir\")) = None.
Proof. vm_compute. reflexivity. Qed.

Lemma failed_script_is_invalid (code : QString) (p : JS.Page) :
  (JS.eval_source code p).1 = JS.Thrown
  \/ (JS.eval_source code p).1 = JS.Normal JS.JSUndefined ->
  (evaluateJavaScript (Snippet code) p).1 = VInvalid.
Proof.
  unfold evaluateJavaScript. destruct (JS.eval_source code p) as [r p'].
  cbn. intros [-> | ->]; reflexivity.
Qed.

(** C4: when the evaluation behind a query gives no valid value, the query
    returns its default and nothing is raised: [lines] returns 0, [text] the
    empty string and [isReadOnly] false.  This holds under every web view;
    in the one modelled here a script that throws, does not parse, or yields
    [undefined] comes back as the invalid value. *)
Theorem failed_evaluation_defaults :
  (forall (S : Type) (h : handler S) (s : S),
      ((h _ (EvaluateJavaScript (Snippet (qs "property('lines')"))) s).1
       = VInvalid -> result h lines s = 0)
      /\ ((h _ (EvaluateJavaScript (Snippet (qs "property('text')"))) s).1
          = VInvalid -> result h text s = [])
      /\ ((h _ (EvaluateJavaScript (Snippet (qs "property('readonly')"))) s).1
          = VInvalid -> result h isReadOnly s = false))
  /\ (forall (env : Resources) (code : QString) (p : JS.Page),
        (JS.eval_source code p).1 = JS.Thrown
        \/ (JS.eval_source code p).1 = JS.Normal JS.JSUndefined ->
        (webview env _ (EvaluateJavaScript (Snippet code)) p).1 = VInvalid).
Proof.
  split.
  - intros S h s. unfold result, lines, text, isReadOnly.
    rewrite !run_evaluate.
    repeat split; intros Hv;
      match goal with
      | |- context [h _ ?c s] => destruct (h _ c s) as [v s1]
      end; cbn in Hv; subst v; reflexivity.
  - intros env code p. apply failed_script_is_invalid.
Qed.

(** An editor whose resources could not be loaded answers with the defaults. *)
Lemma failed_evaluation_defaults_witness :
  let view := webview no_resources in
  let p := final view Editor_new JS.blank_page in
  result view lines p = 0 /\ result view text p = []
  /\ result view isReadOnly p = false.
Proof.
  intros view p.
  destruct (proj1 failed_evaluation_defaults _ view p) as (Hl & Ht & Hr).
  split; [| split].
  - apply Hl. vm_compute. reflexivity.
  - apply Ht. vm_compute. reflexivity.
  - apply Hr. vm_compute. reflexivity.
Defined.

(* ===================================================================== *)
(** ** Reading the snippets *)
(* ===================================================================== *)

Section Scanning.
Import JS.

Lemma scan_all_app (st : option scanner) (a b : QString) :
  scan_all st (a ++ b) = scan_all (scan_all st a) b.
Proof. apply foldl_app. Qed.

(** Inside a literal, plain characters are taken as they are. *)
Lemma scan_string_plain (q : N) (s : QString) :
  forall (acc : QString) (sc : scanner),
    sc_mode sc = InString q acc -> Forall (plain q) s ->
    scan_all (Some sc) s = Some (enter (InString q (rev s ++ acc)) sc).
Proof.
  induction s as [| c s IH]; intros acc sc Hm Hs.
  - destruct sc as [m nl out]. cbn in *. subst m. reflexivity.
  - apply Forall_cons_1 in Hs as [(Hq & Hb & Hl) Hs].
    cbn [scan_all foldl]. change (foldl _ ?st s) with (scan_all st s).
    cbn [mbind option_bind]. unfold scan. rewrite Hm. unfold scan_string.
    rewrite !bool_decide_eq_false_2 by assumption. rewrite Hl.
    rewrite (IH (c :: acc)) by (assumption || reflexivity).
    cbn [rev]. rewrite <- app_assoc. reflexivity.
Qed.

Lemma tokenize_setText (s : QString) :
  Forall (plain 39%N) s ->
  tokenize (setText_snippet s)
  = Some [(false, TIdent (qs "editor")); (false, TPunct 46%N);
          (false, TIdent (qs "setValue")); (false, TPunct 40%N);
          (false, TString s); (false, TPunct 41%N)].
Proof.
  intros Hs. unfold tokenize, setText_snippet. rewrite !scan_all_app.
  set (st := scan_all (Some scanner_start) (qs "editor.setValue('")).
  vm_compute in st. subst st.
  erewrite scan_string_plain; [| reflexivity | exact Hs].
  rewrite app_nil_r. cbv -[rev]. rewrite rev_involutive. reflexivity.
Qed.

(** With nothing to escape in it, the text is passed as it is. *)
Lemma setText_passes_plain_text (s : QString) :
  Forall (plain 39%N) s -> passes_literal (setText_snippet s) s.
Proof.
  intros Hs. unfold passes_literal, parse_program.
  rewrite tokenize_setText by exact Hs. vm_compute. reflexivity.
Qed.

(** A line break inside the quotes ends the scan. *)
Lemma scan_string_line_break (q : N) (acc : QString) (sc : scanner) (c : N) :
  sc_mode sc = InString q acc -> c <> q -> c <> 92%N ->
  is_line_terminator c = true -> scan sc c = None.
Proof.
  intros Hm Hq Hb Hl. unfold scan. rewrite Hm. unfold scan_string.
  rewrite !bool_decide_eq_false_2 by assumption. rewrite Hl. reflexivity.
Qed.

(** *** The scanner and parser on small texts *)

Example statements_on_two_lines :
  parse_program (qs "property('a')" ++ [10%N] ++ qs "editor.setReadOnly(true)")
  = Some [ECall (EIdent (qs "property")) [EString (qs "a")];
          ECall (EMember (EIdent (qs "editor")) (qs "setReadOnly")) [EBool true]].
Proof. vm_compute. reflexivity. Qed.

Example statements_on_one_line :
  parse_program (qs "property('a') editor.setReadOnly(true)") = None.
Proof. vm_compute. reflexivity. Qed.

Example escapes_in_a_literal :
  tokenize (qs "'a\x41B\n\'q'")
  = Some [(false, TString (qs "aAB" ++ [10%N] ++ qs "'q"))].
Proof. vm_compute. reflexivity. Qed.

Example line_feed_in_a_literal :
  tokenize (qs "'a" ++ [10%N] ++ qs "b'") = None.
Proof. vm_compute. reflexivity. Qed.

(** *** Decimal numbers *)

Lemma horner_of_lu (d : Decimal.uint) :
  forall acc : N,
    horner acc d
    = (Unsigned.of_lu (Decimal.rev d) + acc * 10 ^ Unsigned.usize d)%N.
Proof.
  induction d; intros acc; cbn [horner Unsigned.usize];
    [ cbn; lia | ..];
    rewrite IHd; unfold Decimal.rev; cbn [Decimal.revapp];
    rewrite (Unsigned.of_lu_revapp d (_ Decimal.Nil)); cbn [Unsigned.of_lu];
    rewrite N.pow_succ_r'; fold (Decimal.rev d); ring.
Qed.

(** Reading the digits of a positive number gives the number back. *)
Lemma horner_to_uint (p : positive) : horner 0 (Pos.to_uint p) = Npos p.
Proof.
  rewrite horner_of_lu, N.mul_0_l, N.add_0_r, <- Unsigned.of_uint_alt.
  apply Unsigned.of_to.
Qed.

Lemma qs_cons (a : ascii) (s : string) : qs (String a s) = N_of_ascii a :: qs s.
Proof. reflexivity. Qed.

Ltac scan_digit IH Hm :=
  rewrite qs_cons; cbn [scan_all foldl mbind option_bind];
  change (foldl _ ?st ?l) with (scan_all st l);
  unfold scan at 1; rewrite Hm;
  match goal with |- context [is_digit ?c] => change (is_digit c) with true end;
  cbv iota;
  erewrite IH;
  [ reflexivity
  | cbn [enter sc_mode]; f_equal; unfold digit_value;
    match goal with
    | |- context [(N_of_ascii ?a - 48)%N] =>
        let v := eval vm_compute in (N_of_ascii a - 48)%N in
        change (N_of_ascii a - 48)%N with v
    end; lia ].

(** Inside a number, each digit extends the value. *)
Lemma scan_digits (d : Decimal.uint) :
  forall (acc : N) (sc : scanner),
    sc_mode sc = InNumber (Z.of_N acc) ->
    scan_all (Some sc) (qs (NilEmpty.string_of_uint d))
    = Some (enter (InNumber (Z.of_N (horner acc d))) sc).
Proof.
  induction d; intros acc sc Hm; cbn [NilEmpty.string_of_uint horner];
    [ destruct sc; cbn in *; subst; reflexivity | scan_digit IHd Hm .. ].
Qed.

Lemma scan_number (d : Decimal.uint) (sc : scanner) :
  sc_mode sc = Between -> d <> Decimal.Nil ->
  scan_all (Some sc) (qs (NilEmpty.string_of_uint d))
  = Some (enter (InNumber (Z.of_N (horner 0 d))) sc).
Proof.
  intros Hm Hd.
  destruct d; [contradiction | ..];
    cbn [NilEmpty.string_of_uint horner]; rewrite qs_cons;
    cbn [scan_all foldl mbind option_bind];
    change (foldl _ ?st ?l) with (scan_all st l);
    unfold scan at 1; rewrite Hm;
    match goal with
    | |- context [scan_between sc ?c] =>
        let r := eval cbv in (scan_between sc c) in
        change (scan_between sc c) with r
    end;
    (erewrite (scan_digits d _ _); [reflexivity | reflexivity]).
Qed.

Lemma to_uint_digits (p : positive) :
  NilZero.string_of_uint (Pos.to_uint p)
  = NilEmpty.string_of_uint (Pos.to_uint p).
Proof.
  pose proof (Unsigned.to_uint_nonnil p) as Hn.
  destruct (Pos.to_uint p); [contradiction | reflexivity ..].
Qed.

Lemma QString_number_pos (p : positive) :
  QString_number (Zpos p) = qs (NilEmpty.string_of_uint (Pos.to_uint p)).
Proof.
  unfold QString_number. cbn [Z.to_int NilZero.string_of_int].
  rewrite to_uint_digits. reflexivity.
Qed.

Lemma QString_number_neg (p : positive) :
  QString_number (Zneg p)
  = 45%N :: qs (NilEmpty.string_of_uint (Pos.to_uint p)).
Proof.
  unfold QString_number. cbn [Z.to_int NilZero.string_of_int].
  rewrite to_uint_digits. reflexivity.
Qed.

Lemma tokenize_gotoLine (n : Z) :
  tokenize (gotoLine_snippet n)
  = Some ([(false, TIdent (qs "editor")); (false, TPunct 46%N);
           (false, TIdent (qs "gotoLine")); (false, TPunct 40%N)]
          ++ (if n <? 0 then [(false, TPunct 45%N)] else [])
          ++ [(false, TNumber (Z.abs n)); (false, TPunct 41%N)]).
Proof.
  unfold tokenize, gotoLine_snippet. rewrite !scan_all_app.
  set (st := scan_all (Some scanner_start) (qs "editor.gotoLine(")).
  vm_compute in st. subst st.
  destruct n as [| p | p].
  - vm_compute. reflexivity.
  - rewrite QString_number_pos.
    erewrite scan_number; [| reflexivity | apply Unsigned.to_uint_nonnil].
    rewrite horner_to_uint. cbv -[Z.of_N]. reflexivity.
  - rewrite QString_number_neg. cbn [scan_all foldl mbind option_bind].
    change (foldl _ ?st ?l) with (scan_all st l).
    match goal with
    | |- context [scan ?sc 45%N] =>
        let r := eval cbv in (scan sc 45%N) in change (scan sc 45%N) with r
    end.
    erewrite scan_number; [| reflexivity | apply Unsigned.to_uint_nonnil].
    rewrite horner_to_uint. cbv -[Z.of_N]. reflexivity.
Qed.

(** The snippet of [gotoLine] is one call of [editor.gotoLine] on [n]. *)
Lemma parse_gotoLine (n : Z) :
  parse_program (gotoLine_snippet n)
  = Some [ECall (EMember (EIdent (qs "editor")) (qs "gotoLine"))
            [number_literal n]].
Proof.
  unfold parse_program. rewrite tokenize_gotoLine.
  destruct n as [| p | p]; vm_compute; reflexivity.
Qed.
End Scanning.

(* ===================================================================== *)
(** ** Running the snippets *)
(* ===================================================================== *)

Section Evaluation.
Import JS.

Lemma global_bootstrapped (name : QString) (p : Page) :
  bootstrapped p = true ->
  global name p
  = if bool_decide (name = qs "undefined") then Normal JSUndefined
    else global_ready name.
Proof. intros Hb. unfold global. rewrite Hb. reflexivity. Qed.

Lemma boot_bootstrapped (p q : Page) :
  boot p = boot q -> bootstrapped p = bootstrapped q.
Proof.
  unfold boot, bootstrapped. intros E. injection E as -> -> ->. reflexivity.
Qed.

Lemma call_property_boot (args : list JSValue) (p : Page) :
  boot (call_property args p).2 = boot p.
Proof.
  unfold call_property. repeat case_match; reflexivity.
Qed.

Lemma call_method_boot (o : object) (name : QString) (args : list JSValue)
  (p : Page) : boot (call_method o name args p).2 = boot p.
Proof.
  unfold call_method. destruct o; repeat case_match; reflexivity.
Qed.

(** Induction on expressions, through the argument lists. *)
Lemma expr_nested_ind (P : expr -> Prop) :
  (forall name, P (EIdent name)) ->
  (forall s, P (EString s)) ->
  (forall z, P (ENumber z)) ->
  (forall b, P (EBool b)) ->
  (forall e, P e -> P (ENeg e)) ->
  (forall e name, P e -> P (EMember e name)) ->
  (forall f args, P f -> Forall P args -> P (ECall f args)) ->
  forall e, P e.
Proof.
  intros Hi Hs Hn Hb Hneg Hm Hc.
  fix IH 1. intros [name | s | z | b | e | e name | f args].
  - apply Hi.
  - apply Hs.
  - apply Hn.
  - apply Hb.
  - apply Hneg, IH.
  - apply Hm, IH.
  - apply Hc; [apply IH |].
    induction args as [| a args IHargs]; constructor; [apply IH | exact IHargs].
Qed.

Lemma eval_args_boot (es : list expr) :
  Forall (fun e => forall p, boot (eval e p).2 = boot p) es ->
  forall p, boot (eval_args es p).2 = boot p.
Proof.
  induction 1 as [| e es He Hes IH]; intros p; [reflexivity |].
  cbn [eval_args]. specialize (He p).
  destruct (eval e p) as [[v |] p1]; cbn in He; [| exact He].
  specialize (IH p1). destruct (eval_args es p1) as [r p2].
  cbn in *. congruence.
Qed.

Lemma eval_call_member (e1 : expr) (name : QString) (args : list expr)
  (p : Page) :
  eval (ECall (EMember e1 name) args) p
  = match eval e1 p with
    | (Normal (JSObject o), p1) =>
        match eval_args args p1 with
        | (Some vs, p2) => call_method o name vs p2
        | (None, p2) => (Thrown, p2)
        end
    | (_, p1) => (Thrown, p1)
    end.
Proof. reflexivity. Qed.

Lemma eval_call_function (f : expr) (args : list expr) (p : Page) :
  (forall e1 name, f <> EMember e1 name) ->
  eval (ECall f args) p
  = match eval f p with
    | (Normal (JSObject FunProperty), p1) =>
        match eval_args args p1 with
        | (Some vs, p2) => call_property vs p2
        | (None, p2) => (Thrown, p2)
        end
    | (_, p1) => (Thrown, p1)
    end.
Proof.
  intros Hf. destruct f; try reflexivity. exfalso. eapply Hf. reflexivity.
Qed.

Lemma member_or_not (f : expr) :
  (exists e1 name, f = EMember e1 name) \/ (forall e1 name, f <> EMember e1 name).
Proof. destruct f; try (right; discriminate). left. eauto. Qed.

(** No expression touches the bootstrap state of the page. *)
Lemma eval_boot (e : expr) : forall p, boot (eval e p).2 = boot p.
Proof.
  induction e as [name | s | z | b | e IH | e name IH | f args IHf IHargs]
    using expr_nested_ind; intros p; try reflexivity.
  - cbn [eval]. specialize (IH p).
    destruct (eval e p) as [[[] |] p1]; exact IH.
  - cbn [eval]. specialize (IH p).
    destruct (eval e p) as [[v |] p1]; exact IH.
  - destruct (member_or_not f) as [(e1 & name & ->) | Hf].
    + rewrite eval_call_member. specialize (IHf p). cbn [eval] in IHf.
      destruct (eval e1 p) as [[v |] p1]; cbn in IHf; [| exact IHf].
      assert (boot (eval_args args p1).2 = boot p1) as Ha
          by (apply eval_args_boot; exact IHargs).
      destruct v as [| | | | o]; try exact IHf.
      destruct (eval_args args p1) as [[vs |] p2]; cbn in Ha.
      * rewrite call_method_boot. congruence.
      * cbn. congruence.
    + rewrite eval_call_function by exact Hf. specialize (IHf p).
      destruct (eval f p) as [[v |] p1]; cbn in IHf; [| exact IHf].
      assert (boot (eval_args args p1).2 = boot p1) as Ha
          by (apply eval_args_boot; exact IHargs).
      destruct v as [| | | | []]; try exact IHf.
      destruct (eval_args args p1) as [[vs |] p2]; cbn in Ha.
      * rewrite call_property_boot. congruence.
      * cbn. congruence.
Qed.
End Evaluation.

Section Pages.
Import JS.

Lemma eval_statements_boot (es : list expr) :
  forall last p, boot (eval_statements es last p).2 = boot p.
Proof.
  induction es as [| e es IH]; intros last p; [reflexivity |].
  cbn [eval_statements]. pose proof (eval_boot e p) as He.
  destruct (eval e p) as [[v |] p1]; cbn in He; [| exact He].
  rewrite IH. exact He.
Qed.

Lemma eval_source_boot (code : QString) (p : Page) :
  boot (eval_source code p).2 = boot p.
Proof.
  unfold eval_source. destruct (parse_program code) as [es |];
    [apply eval_statements_boot | reflexivity].
Qed.

(** Evaluating facade source text leaves a bootstrapped page bootstrapped. *)
Lemma snippet_keeps_bootstrapped (code : QString) (p : Page) :
  bootstrapped (evaluateJavaScript (Snippet code) p).2 = bootstrapped p.
Proof.
  apply boot_bootstrapped. unfold evaluateJavaScript.
  pose proof (eval_source_boot code p) as E.
  destruct (eval_source code p) as [r p']. exact E.
Qed.

(** Text with a syntax error does nothing, whatever the page. *)
Lemma syntax_error_no_effect (code : QString) (p : Page) :
  parse_program code = None ->
  evaluateJavaScript (Snippet code) p = (VInvalid, p).
Proof.
  intros E. unfold evaluateJavaScript, eval_source. rewrite E. reflexivity.
Qed.

(** A program that only evaluates source text, started on a bootstrapped
    page, makes each of its calls on a bootstrapped page. *)
Lemma snippets_only_history {A : Type} (env : Resources) (prog : Bridge.prog A) :
  snippets_only prog ->
  forall p, bootstrapped p = true ->
    Forall (fun '(q, e) => bootstrapped q = true /\ is_snippet e = true)
           (history (webview env) prog p)
    /\ bootstrapped (final (webview env) prog p) = true.
Proof.
  induction 1 as [a | code k Hk IH]; intros p Hp.
  - split; [constructor | exact Hp].
  - unfold history, final in *. cbn [run webview].
    pose proof (snippet_keeps_bootstrapped code p) as Hkeep.
    destruct (evaluateJavaScript (Snippet code) p) as [v p1]. cbn in Hkeep.
    assert (bootstrapped p1 = true) as Hp1 by congruence.
    destruct (IH v p1 Hp1) as [Hh Hf].
    destruct (run (webview env) (k v) p1) as [[a p2] log]. cbn in *.
    split; [constructor; [split; [exact Hp | reflexivity] | exact Hh] | exact Hf].
Qed.
End Pages.

Lemma invoke_snippets_only `{EditorHeader} (o : operation) :
  snippets_only (invoke o).
Proof.
  destruct o; cbn [invoke];
    unfold lines, gotoLine, text, setText, isReadOnly, setReadOnly,
      setHighlightMode, setTheme, setHighlightMode_name_url, setTheme_name_url;
    repeat case_match;
    repeat first [ apply snippets_only_bind; [| intros ?]
                 | apply executeJavaScript_snippets_only
                 | apply so_ret ].
Qed.

Lemma invoke_all_snippets_only `{EditorHeader} (os : list operation) :
  snippets_only (invoke_all os).
Proof.
  induction os as [| o os IH]; cbn [invoke_all]; [apply so_ret |].
  apply snippets_only_bind; [apply invoke_snippets_only | intros; exact IH].
Qed.

(* ===================================================================== *)
(** ** The operations on a bootstrapped page *)
(* ===================================================================== *)

(** Evaluate a statement list on a page known to be bootstrapped. *)
Ltac eval_ready Hb :=
  cbn [JS.eval_statements JS.eval];
  repeat (rewrite global_bootstrapped by exact Hb;
          cbv -[JS.global lookup insert]).

(** Replace the parse of a closed source text by its value. *)
Ltac parse_closed :=
  match goal with
  | |- context [JS.parse_program ?c] =>
      let r := eval vm_compute in (JS.parse_program c) in
      replace (JS.parse_program c) with r by (vm_compute; reflexivity)
  end.

(** One call of the program under [run]. *)
Ltac run_step :=
  cbn [run mbind mret prog_bind prog_ret bind executeJavaScript perform
       webview evaluateJavaScript];
  cbv beta iota zeta.

Section Operations.
Import JS.
Context (env : Resources) (p : Page) (Hb : bootstrapped p = true).

Lemma eval_setValue (s : QString) :
  Forall (plain 39%N) s ->
  eval_source (setText_snippet s) p
  = (Normal (JSString s),
     with_ace (fun a => mkAce s (ace_readOnly a) true (line_count s)
                          (ace_mode a) (ace_theme a)) p).
Proof.
  intros Hs. unfold eval_source.
  rewrite setText_passes_plain_text by exact Hs.
  eval_ready Hb. reflexivity.
Qed.

Lemma eval_clearSelection :
  eval_source (qs "editor.selection.clearSelection()") p
  = (Normal JSUndefined,
     with_ace (fun a => mkAce (ace_value a) (ace_readOnly a) false
                          (ace_cursor a) (ace_mode a) (ace_theme a)) p).
Proof. unfold eval_source. parse_closed. eval_ready Hb. reflexivity. Qed.

Lemma eval_property_text :
  eval_source (qs "property('text')") p
  = (Normal (JSString (ace_value (ace p))), p).
Proof. unfold eval_source. parse_closed. eval_ready Hb. reflexivity. Qed.

Lemma eval_property_readonly :
  eval_source (qs "property('readonly')") p
  = (Normal (default JSUndefined (props p !! qs "readonly")), p).
Proof. unfold eval_source. parse_closed. eval_ready Hb. reflexivity. Qed.

Lemma eval_setReadOnly_true :
  eval_source (qs "property('readonly', true);"
               ++ qs "editor.setReadOnly(true);") p
  = (Normal JSUndefined,
     with_ace (fun a => mkAce (ace_value a) true (ace_selected a)
                          (ace_cursor a) (ace_mode a) (ace_theme a))
       (with_props (insert (qs "readonly") (JSBool true)) p)).
Proof. unfold eval_source. parse_closed. eval_ready Hb. reflexivity. Qed.

(** The snippet of [gotoLine] hands [n] itself to the editor library. *)
Lemma eval_gotoLine (n : Z) :
  eval_source (gotoLine_snippet n) p
  = call_method ObjEditor (qs "gotoLine") [JSNumber n] p.
Proof.
  unfold eval_source. rewrite parse_gotoLine.
  cbn [eval_statements eval]. rewrite global_bootstrapped by exact Hb.
  destruct n as [| q | q]; cbv -[global lookup insert call_method];
    destruct (call_method _ _ _ p) as [[v |] p']; reflexivity.
Qed.
End Operations.

Section Facade.
Import JS.
Context (env : Resources) (p : Page) (Hb : bootstrapped p = true).

Lemma setText_final (s : QString) :
  Forall (plain 39%N) s ->
  final (webview env) (setText s) p
  = with_ace (fun a => mkAce s (ace_readOnly a) false (line_count s)
                         (ace_mode a) (ace_theme a)) p.
Proof.
  intros Hs. unfold final, setText. run_step.
  fold (setText_snippet s). rewrite eval_setValue by assumption. run_step.
  rewrite eval_clearSelection by exact Hb. reflexivity.
Qed.

Lemma text_result : result (webview env) text p = ace_value (ace p).
Proof.
  unfold result, text. run_step.
  rewrite eval_property_text by exact Hb. reflexivity.
Qed.

Lemma isReadOnly_result :
  result (webview env) isReadOnly p
  = toBool (to_variant (Normal (default JSUndefined (props p !! qs "readonly")))).
Proof.
  unfold result, isReadOnly. run_step.
  rewrite eval_property_readonly by exact Hb. reflexivity.
Qed.

Lemma setReadOnly_true_final :
  final (webview env) (setReadOnly true) p
  = with_ace (fun a => mkAce (ace_value a) true (ace_selected a)
                         (ace_cursor a) (ace_mode a) (ace_theme a))
      (with_props (insert (qs "readonly") (JSBool true)) p).
Proof.
  unfold final, setReadOnly. run_step.
  rewrite eval_setReadOnly_true by exact Hb. reflexivity.
Qed.

End Facade.

(** Switching read-only on sets the page-side property and the flag of the
    editor together. *)
Lemma setReadOnly_true_consistent (env : Resources) (p : JS.Page) :
  JS.bootstrapped p = true ->
  result (webview env) (setReadOnly true;; isReadOnly) p = true
  /\ JS.ace_readOnly (JS.ace (final (webview env) (setReadOnly true) p)) = true.
Proof.
  intros Hb. split.
  - rewrite result_bind, setReadOnly_true_final by exact Hb.
    rewrite isReadOnly_result by exact Hb.
    cbn [JS.props JS.with_ace JS.with_props]. rewrite lookup_insert_eq.
    reflexivity.
  - rewrite setReadOnly_true_final by exact Hb. reflexivity.
Qed.

(** C8: for every integer [n], in range or not, [gotoLine n] checks nothing:
    under every web view and in every state it makes exactly one call, the
    evaluation of [editor.gotoLine(n)] with the decimal form of [n], and the
    state it leaves is the one the web view produced for that snippet.  The
    snippet is one call of the line-navigation function of the editor on
    the number [n], so on a bootstrapped page what happens for [n] is what
    the editor library does with [n]. *)
Theorem gotoLine_no_bounds_check (n : Z) :
  (forall (S : Type) (h : handler S) (s : S),
      events h (gotoLine n) s = [Evaluated (Snippet (gotoLine_snippet n))]
      /\ final h (gotoLine n) s
         = (h _ (EvaluateJavaScript (Snippet (gotoLine_snippet n))) s).2)
  /\ JS.parse_program (gotoLine_snippet n)
     = Some [JS.ECall (JS.EMember (JS.EIdent (qs "editor")) (qs "gotoLine"))
               [number_literal n]]
  /\ (forall p : JS.Page,
        JS.bootstrapped p = true ->
        JS.eval_source (gotoLine_snippet n) p
        = JS.call_method JS.ObjEditor (qs "gotoLine") [JS.JSNumber n] p).
Proof.
  split; [| split].
  - intros S h s. unfold events, history, final, gotoLine.
    fold (gotoLine_snippet n). rewrite run_evaluate.
    destruct (h _ (EvaluateJavaScript (Snippet (gotoLine_snippet n))) s)
      as [v s1].
    split; reflexivity.
  - apply parse_gotoLine.
  - intros p Hb. apply eval_gotoLine. exact Hb.
Qed.

(** A line number far below the first line reaches the editor as it is. *)
Lemma gotoLine_no_bounds_check_witness :
  JS.eval_source (gotoLine_snippet (-5)) ready_page
  = JS.call_method JS.ObjEditor (qs "gotoLine") [JS.JSNumber (-5)] ready_page.
Proof.
  apply (proj2 (proj2 (gotoLine_no_bounds_check (-5))) ready_page).
  vm_compute. reflexivity.
Defined.

Example gotoLine_out_of_range :
  events (webview all_resources) (gotoLine (-5)) JS.blank_page
  = [Evaluated (Snippet (qs "editor.gotoLine(-5)"))].
Proof. vm_compute. reflexivity. Qed.

(** The source text of the branch that switches read-only off. *)
Lemma setReadOnly_false_syntax_error :
  JS.parse_program (qs "property('readonly', false)"
                    ++ qs "editor.setReadOnly(false);") = None.
Proof. vm_compute. reflexivity. Qed.

(** With the separator the same text is two statements. *)
Example setReadOnly_false_with_separator :
  JS.parse_program (qs "property('readonly', false);"
                    ++ qs "editor.setReadOnly(false);")
  = Some [JS.ECall (JS.EIdent (qs "property"))
            [JS.EString (qs "readonly"); JS.EBool false];
          JS.ECall (JS.EMember (JS.EIdent (qs "editor")) (qs "setReadOnly"))
            [JS.EBool false]].
Proof. vm_compute. reflexivity. Qed.

(** A constructed editor with all its resources is on the ready page. *)
Lemma constructed_page :
  final (webview all_resources) Editor_new JS.blank_page = ready_page.
Proof. vm_compute. reflexivity. Qed.

(** C1, at the input where it fails: the two literals of the [false] branch
    of [setReadOnly] are joined without a separator, the text does not
    parse, and so [setReadOnly false] changes nothing on any page.  On a
    freshly constructed editor, after [setReadOnly true] and then
    [setReadOnly false], [isReadOnly] still returns true and the flag of the
    editor is still set. *)
Theorem setReadOnly_false_has_no_effect :
  (forall (env : Resources) (p : JS.Page),
      final (webview env) (setReadOnly false) p = p)
  /\ result (webview all_resources)
       (setReadOnly true;; setReadOnly false;; isReadOnly) ready_page = true
  /\ JS.ace_readOnly
       (JS.ace (final (webview all_resources)
                  (setReadOnly true;; setReadOnly false) ready_page)) = true.
Proof.
  assert (forall env p, final (webview env) (setReadOnly false) p = p) as Hf.
  { intros env p. unfold final, setReadOnly.
    cbn [run mbind mret prog_bind prog_ret bind executeJavaScript perform
         webview].
    rewrite syntax_error_no_effect by exact setReadOnly_false_syntax_error.
    reflexivity. }
  split; [exact Hf | split].
  - vm_compute. reflexivity.
  - vm_compute. reflexivity.
Qed.

(* ===================================================================== *)
(** ** Round trip of the text *)
(* ===================================================================== *)

Lemma literal_safe_plain (s : QString) :
  literal_safe s -> Forall (JS.plain 39%N) s.
Proof.
  unfold literal_safe. intros Hs. eapply Forall_impl; [exact Hs |].
  intros c (H1 & _ & H2 & H3). repeat split; assumption.
Qed.

(** C3 as stated fails: a text with a line feed has neither a quote nor a
    backslash, yet [setText] followed by [text] does not return it.  The
    line feed ends up inside the quotes of the snippet, which is a syntax
    error, and the editor keeps its old text. *)
Lemma roundtrip_fails_on_line_feed :
  let s := qs "a" ++ [10%N] ++ qs "b" in
  quote_free s
  /\ JS.parse_program (setText_snippet s) = None
  /\ result (webview all_resources) (setText s;; text) ready_page = []
  /\ result (webview all_resources) (setText s;; text) ready_page <> s.
Proof.
  cbv zeta. split; [| split; [| split]].
  - apply (bool_decide_unpack _). vm_compute. exact I.
  - vm_compute. reflexivity.
  - vm_compute. reflexivity.
  - vm_compute. discriminate.
Qed.

(** C3, amended: for every text [s] with no quote, no backslash and no
    line terminator (LF, CR, U+2028, U+2029), on a bootstrapped page
    [setText s] followed by [text] returns [s]. *)
Theorem setText_text_roundtrip (env : Resources) (p : JS.Page) (s : QString) :
  JS.bootstrapped p = true ->
  literal_safe s ->
  result (webview env) (setText s;; text) p = s.
Proof.
  intros Hb Hs. apply literal_safe_plain in Hs.
  rewrite result_bind, setText_final by assumption.
  rewrite text_result by exact Hb. reflexivity.
Qed.

Lemma setText_text_roundtrip_witness :
  result (webview all_resources) (setText (qs "int main() { return 0; }");; text)
    ready_page
  = qs "int main() { return 0; }".
Proof.
  apply setText_text_roundtrip.
  - vm_compute. reflexivity.
  - apply (bool_decide_unpack _). vm_compute. exact I.
Defined.

(* ===================================================================== *)
(** ** Construction before use *)
(* ===================================================================== *)

Section Sequencing.
Import JS.
Context `{EditorHeader}.

(** What the constructor does, whatever the resources. *)
Lemma constructor_events (env : Resources) :
  events (webview env) Editor_new blank_page
  = LoadFinished (mkQUrl (qs "qrc:/html/ace.html"))
                 (env (qs "qrc:/html/ace.html"))
    :: Injected (qs "Novile")
    :: Opened (qs ":/html/wrapper.js") (env (qs ":/html/wrapper.js"))
    :: (if env (qs ":/html/wrapper.js")
        then [Evaluated (ResourceScript (qs ":/html/wrapper.js"))]
        else []).
Proof.
  unfold events, history, Editor_new, startAceWidget. run_step.
  cbn [url_text]. destruct (env (qs ":/html/wrapper.js")); reflexivity.
Qed.

Lemma constructor_history_no_snippet (env : Resources) :
  Forall (fun '(_, e) => is_snippet e = false)
         (history (webview env) Editor_new blank_page).
Proof.
  unfold history, Editor_new, startAceWidget. run_step.
  destruct (env (qs ":/html/wrapper.js")); repeat constructor.
Qed.

Lemma constructor_final (env : Resources) :
  env (qs "qrc:/html/ace.html") = true ->
  env (qs ":/html/wrapper.js") = true ->
  final (webview env) Editor_new blank_page = ready_page.
Proof.
  intros Hp Hw. unfold final, Editor_new, startAceWidget. run_step.
  cbn [url_text]. rewrite Hp, Hw. reflexivity.
Qed.

Lemma session_history (env : Resources) (os : list operation) :
  history (webview env) (session os) blank_page
  = history (webview env) Editor_new blank_page
    ++ history (webview env) (invoke_all os)
         (final (webview env) Editor_new blank_page).
Proof. unfold session. rewrite history_bind. reflexivity. Qed.

(** Events that all are evaluations of source text, after the bootstrap. *)
Lemma bootstrap_first_after (evs : list event) :
  Forall (fun e => is_snippet e = true) evs ->
  bootstrap_first (bootstrap_events ++ evs).
Proof.
  intros Hs before e after E He.
  apply app_eq_inv in E as [(k & E1 & E2) | (k & E1 & E2)].
  - destruct k as [| e' k].
    + rewrite app_nil_r in E1. subst before. reflexivity.
    + injection E2 as <- _.
      assert (e ∈ bootstrap_events) as Hin
          by (rewrite E1; set_solver).
      unfold bootstrap_events in Hin.
      repeat (apply elem_of_cons in Hin as [-> | Hin]; [discriminate He |]).
      apply elem_of_nil in Hin. destruct Hin.
  - subst before. apply sublist_inserts_r. reflexivity.
Qed.
End Sequencing.

(** C7 as stated fails: when the helper script cannot be opened the
    constructor skips its evaluation and returns all the same; the first
    operation then evaluates its snippet although the bootstrap never
    finished, on a page that is not bootstrapped. *)
Lemma bootstrap_skipped_without_helper :
  let view := webview without_helper in
  let run_it := @session default_header [CallLines] in
  events view run_it JS.blank_page
  = [LoadFinished (mkQUrl (qs "qrc:/html/ace.html")) true;
     Injected (qs "Novile");
     Opened (qs ":/html/wrapper.js") false;
     Evaluated (Snippet (qs "property('lines')"))]
  /\ ~ bootstrap_first (events view run_it JS.blank_page)
  /\ ~ on_bootstrapped_page (history view run_it JS.blank_page).
Proof.
  cbv zeta.
  assert (events (webview without_helper) (@session default_header [CallLines])
            JS.blank_page
          = [LoadFinished (mkQUrl (qs "qrc:/html/ace.html")) true;
             Injected (qs "Novile");
             Opened (qs ":/html/wrapper.js") false;
             Evaluated (Snippet (qs "property('lines')"))]) as E
      by (vm_compute; reflexivity).
  split; [exact E | split].
  - rewrite E. intros Hf.
    specialize (Hf [LoadFinished (mkQUrl (qs "qrc:/html/ace.html")) true;
                    Injected (qs "Novile");
                    Opened (qs ":/html/wrapper.js") false]
                   (Evaluated (Snippet (qs "property('lines')"))) []
                   eq_refl eq_refl).
    apply sublist_length in Hf. cbn in Hf. lia.
  - unfold on_bootstrapped_page. rewrite session_history.
    intros Hf. apply Forall_app in Hf as [_ Hf].
    vm_compute in Hf. inversion Hf as [| x l Hx Hl]. subst.
    specialize (Hx eq_refl). discriminate Hx.
Qed.

(** C7, amended: the constructor runs its bootstrap steps before it returns,
    hence before any evaluation by a public operation: it waits for the page
    load, injects the callback object, and evaluates the helper script when
    that resource opens.  When the page and the helper script both load,
    every evaluation by a public operation comes after the whole bootstrap;
    and when the arguments of the operations have nothing to escape in
    them, every such evaluation finds the page bootstrapped. *)
Theorem constructor_before_operations `{EditorHeader}
  (env : Resources) (os : list operation) :
  let view := webview env in
  let constructed := final view Editor_new JS.blank_page in
  history view (session os) JS.blank_page
  = history view Editor_new JS.blank_page ++ history view (invoke_all os) constructed
  /\ events view Editor_new JS.blank_page
     = LoadFinished (mkQUrl (qs "qrc:/html/ace.html"))
                    (env (qs "qrc:/html/ace.html"))
       :: Injected (qs "Novile")
       :: Opened (qs ":/html/wrapper.js") (env (qs ":/html/wrapper.js"))
       :: (if env (qs ":/html/wrapper.js")
           then [Evaluated (ResourceScript (qs ":/html/wrapper.js"))]
           else [])
  /\ (env (qs "qrc:/html/ace.html") = true ->
      env (qs ":/html/wrapper.js") = true ->
      bootstrap_first (events view (session os) JS.blank_page)
      /\ (Forall escape_free os ->
          on_bootstrapped_page (history view (session os) JS.blank_page))).
Proof.
  cbv zeta. split; [apply session_history | split; [apply constructor_events |]].
  intros Hp Hw.
  pose proof (constructor_final env Hp Hw) as Hc.
  destruct (snippets_only_history env (invoke_all os)
              (invoke_all_snippets_only os) ready_page eq_refl) as [Hops _].
  split.
  - unfold events. rewrite session_history, fmap_app.
    fold (events (webview env) Editor_new JS.blank_page).
    rewrite constructor_events, Hp, Hw, Hc.
    apply (bootstrap_first_after (history (webview env) (invoke_all os) ready_page).*2).
    apply Forall_fmap. eapply Forall_impl; [exact Hops |].
    intros [q e] [_ He]. exact He.
  - intros _. unfold on_bootstrapped_page. rewrite session_history, Hc.
    apply Forall_app. split.
    + eapply Forall_impl; [apply constructor_history_no_snippet |].
      intros [q e] He Hs. congruence.
    + eapply Forall_impl; [exact Hops |].
      intros [q e] [Hq _] _. exact Hq.
Qed.

Lemma constructor_before_operations_witness :
  let os := [CallSetText (qs "x"); CallLines; CallSetReadOnly true] in
  bootstrap_first
    (events (webview all_resources) (@session default_header os) JS.blank_page)
  /\ on_bootstrapped_page
       (history (webview all_resources) (@session default_header os) JS.blank_page).
Proof.
  intros os.
  destruct (proj2 (proj2 (@constructor_before_operations default_header
                            all_resources os)) eq_refl eq_refl) as [Hfirst Hpage].
  split; [exact Hfirst | apply Hpage].
  repeat apply Forall_cons_2; try apply Forall_nil_2;
    first [ exact I | apply (bool_decide_unpack _); vm_compute; exact I ].
Defined.

(* ===================================================================== *)
(** ** A page that is not bootstrapped *)
(* ===================================================================== *)

Section NotBootstrapped.
Import JS.

Lemma global_not_bootstrapped (name : QString) (p : Page) :
  bootstrapped p = false -> is_object (global name p) = false.
Proof.
  intros Hb. unfold global. rewrite Hb. case_bool_decide; reflexivity.
Qed.

(** Without a global object nothing can be called: an expression yields no
    object and leaves the page as it is; the same holds for the object of a
    member expression. *)
Lemma eval_inert_member (e : expr) :
  forall p, bootstrapped p = false ->
            ((eval e p).2 = p /\ is_object (eval e p).1 = false)
            /\ (forall e1 name, e = EMember e1 name ->
                  (eval e1 p).2 = p /\ is_object (eval e1 p).1 = false).
Proof.
  induction e as [name | s | z | b | e IH | e name IH | f args IHf _]
    using expr_nested_ind; intros p Hb;
    (split; [| try (intros ? ? ?; discriminate)]); try (split; reflexivity).
  - split; [reflexivity | apply global_not_bootstrapped; exact Hb].
  - cbn [eval]. destruct (IH p Hb) as [[Hp Ho] _].
    destruct (eval e p) as [[[] |] p1]; cbn in *; subst; split; reflexivity.
  - cbn [eval]. destruct (IH p Hb) as [[Hp Ho] _].
    destruct (eval e p) as [[[| | | | o] |] p1]; cbn in *; subst;
      try discriminate; split; reflexivity.
  - intros e1 name' [= <- <-]. exact (proj1 (IH p Hb)).
  - destruct (member_or_not f) as [(e1 & name & ->) | Hf].
    + rewrite eval_call_member.
      destruct (proj2 (IHf p Hb) e1 name eq_refl) as [Hp Ho].
      destruct (eval e1 p) as [[[| | | | o] |] p1]; cbn in *; subst;
        try discriminate; split; reflexivity.
    + rewrite eval_call_function by exact Hf.
      destruct (IHf p Hb) as [[Hp Ho] _].
      destruct (eval f p) as [[[| | | | o] |] p1]; cbn in *; subst;
        try discriminate; split; reflexivity.
Qed.

Lemma eval_inert (e : expr) (p : Page) :
  bootstrapped p = false ->
  (eval e p).2 = p /\ is_object (eval e p).1 = false.
Proof. intros Hb. exact (proj1 (eval_inert_member e p Hb)). Qed.

Lemma eval_statements_inert (es : list expr) :
  forall last p, bootstrapped p = false -> (eval_statements es last p).2 = p.
Proof.
  induction es as [| e es IH]; intros last p Hb; [reflexivity |].
  cbn [eval_statements]. destruct (eval_inert e p Hb) as [Hp _].
  destruct (eval e p) as [[v |] p1]; cbn in Hp; subst p1;
    [apply IH; exact Hb | reflexivity].
Qed.

Lemma snippet_inert (code : QString) (p : Page) :
  bootstrapped p = false -> (evaluateJavaScript (Snippet code) p).2 = p.
Proof.
  intros Hb. unfold evaluateJavaScript, eval_source.
  destruct (parse_program code) as [es |]; [| reflexivity].
  pose proof (eval_statements_inert es JSUndefined p Hb) as E.
  destruct (eval_statements es JSUndefined p) as [r p']. exact E.
Qed.

Lemma snippets_only_inert {A : Type} (env : Resources) (prog : Bridge.prog A) :
  snippets_only prog ->
  forall p, bootstrapped p = false -> final (webview env) prog p = p.
Proof.
  induction 1 as [a | code k Hk IH]; intros p Hb; [reflexivity |].
  unfold final in *. cbn [run webview].
  pose proof (snippet_inert code p Hb) as E.
  destruct (evaluateJavaScript (Snippet code) p) as [v p1]. cbn in E. subst p1.
  specialize (IH v p Hb).
  destruct (run (webview env) (k v) p) as [[a p2] log]. exact IH.
Qed.

End NotBootstrapped.

(* ===================================================================== *)
(** ** Texts with two literals *)
(* ===================================================================== *)

(** Scan a closed piece of text from the state reached so far. *)
Ltac scan_chunk :=
  match goal with
  | |- context [JS.scan_all (Some ?sc) (qs ?lit)] =>
      let r := eval cbv -[rev app] in (JS.scan_all (Some sc) (qs lit)) in
      change (JS.scan_all (Some sc) (qs lit)) with r
  end.

(** Scan a plain text inside the literal that is open. *)
Ltac scan_plain H :=
  erewrite scan_string_plain; [| reflexivity | exact H].

Section TwoLiterals.
Import JS.

Lemma tokenize_mode_request (url name : QString) :
  Forall (plain 39%N) url -> Forall (plain 39%N) name ->
  tokenize (mode_request_text url name)
  = Some [(false, TIdent (qs "$")); (false, TPunct 46%N);
          (false, TIdent (qs "getScript")); (false, TPunct 40%N);
          (false, TString url); (false, TPunct 41%N); (false, TPunct 59%N);
          (false, TIdent (qs "editor")); (false, TPunct 46%N);
          (false, TIdent (qs "getSession")); (false, TPunct 40%N);
          (false, TPunct 41%N); (false, TPunct 46%N);
          (false, TIdent (qs "setMode")); (false, TPunct 40%N);
          (false, TString (qs "ace/mode/" ++ name)); (false, TPunct 41%N);
          (false, TPunct 59%N)].
Proof.
  intros Hu Hn. unfold tokenize, mode_request_text. rewrite !scan_all_app.
  set (st := scan_all (Some scanner_start) (qs "$.getScript('")).
  vm_compute in st. subst st.
  scan_plain Hu. rewrite app_nil_r. scan_chunk. scan_chunk.
  scan_plain Hn. scan_chunk.
  cbn [mbind option_bind]. cbv -[rev app].
  rewrite rev_app_distr, !rev_involutive. reflexivity.
Qed.
Lemma tokenize_theme_request (url name : QString) :
  Forall (plain 39%N) url -> Forall (plain 39%N) name ->
  tokenize (theme_request_text url name)
  = Some [(false, TIdent (qs "$")); (false, TPunct 46%N);
          (false, TIdent (qs "getScript")); (false, TPunct 40%N);
          (false, TString url); (false, TPunct 41%N); (false, TPunct 59%N);
          (false, TIdent (qs "editor")); (false, TPunct 46%N);
          (false, TIdent (qs "setTheme")); (false, TPunct 40%N);
          (false, TString (qs "ace/theme/" ++ name)); (false, TPunct 41%N);
          (false, TPunct 59%N)].
Proof.
  intros Hu Hn. unfold tokenize, theme_request_text. rewrite !scan_all_app.
  set (st := scan_all (Some scanner_start) (qs "$.getScript('")).
  vm_compute in st. subst st.
  scan_plain Hu. rewrite app_nil_r. scan_chunk. scan_chunk.
  scan_plain Hn. scan_chunk.
  cbn [mbind option_bind]. cbv -[rev app].
  rewrite rev_app_distr, !rev_involutive. reflexivity.
Qed.

Lemma tokenize_smuggle (a b : QString) :
  Forall (plain 39%N) a -> Forall (plain 39%N) b ->
  tokenize (setText_snippet (smuggle a b))
  = Some [(false, TIdent (qs "editor")); (false, TPunct 46%N);
          (false, TIdent (qs "setValue")); (false, TPunct 40%N);
          (false, TString a); (false, TPunct 41%N); (false, TPunct 59%N);
          (false, TIdent (qs "editor")); (false, TPunct 46%N);
          (false, TIdent (qs "setReadOnly")); (false, TPunct 40%N);
          (false, TIdent (qs "true")); (false, TPunct 41%N);
          (false, TPunct 59%N);
          (false, TIdent (qs "editor")); (false, TPunct 46%N);
          (false, TIdent (qs "setValue")); (false, TPunct 40%N);
          (false, TString b); (false, TPunct 41%N)].
Proof.
  intros Ha Hb. unfold tokenize, setText_snippet, smuggle.
  rewrite !scan_all_app.
  set (st := scan_all (Some scanner_start) (qs "editor.setValue('")).
  vm_compute in st. subst st.
  scan_plain Ha. rewrite app_nil_r. scan_chunk.
  scan_plain Hb. rewrite app_nil_r. scan_chunk.
  cbn [mbind option_bind]. cbv -[rev app].
  rewrite !rev_involutive. reflexivity.
Qed.

Lemma parse_mode_request (url name : QString) :
  Forall (plain 39%N) url -> Forall (plain 39%N) name ->
  parse_program (mode_request_text url name)
  = Some [ECall (EMember (EIdent (qs "$")) (qs "getScript")) [EString url];
          ECall (EMember
                   (ECall (EMember (EIdent (qs "editor")) (qs "getSession")) [])
                   (qs "setMode"))
            [EString (qs "ace/mode/" ++ name)]].
Proof.
  intros Hu Hn. unfold parse_program.
  rewrite tokenize_mode_request by assumption. reflexivity.
Qed.

Lemma parse_theme_request (url name : QString) :
  Forall (plain 39%N) url -> Forall (plain 39%N) name ->
  parse_program (theme_request_text url name)
  = Some [ECall (EMember (EIdent (qs "$")) (qs "getScript")) [EString url];
          ECall (EMember (EIdent (qs "editor")) (qs "setTheme"))
            [EString (qs "ace/theme/" ++ name)]].
Proof.
  intros Hu Hn. unfold parse_program.
  rewrite tokenize_theme_request by assumption. reflexivity.
Qed.

Lemma parse_smuggle (a b : QString) :
  Forall (plain 39%N) a -> Forall (plain 39%N) b ->
  parse_program (setText_snippet (smuggle a b))
  = Some [ECall (EMember (EIdent (qs "editor")) (qs "setValue")) [EString a];
          ECall (EMember (EIdent (qs "editor")) (qs "setReadOnly")) [EBool true];
          ECall (EMember (EIdent (qs "editor")) (qs "setValue")) [EString b]].
Proof.
  intros Ha Hb. unfold parse_program.
  rewrite tokenize_smuggle by assumption. reflexivity.
Qed.

Section Ready.
Context (p : Page) (Hb : bootstrapped p = true).

Lemma eval_mode_request (url name : QString) :
  Forall (plain 39%N) url -> Forall (plain 39%N) name ->
  eval_source (mode_request_text url name) p
  = (Normal JSUndefined,
     with_ace (with_mode (qs "ace/mode/" ++ name)) (with_fetched url p)).
Proof.
  intros Hu Hn. unfold eval_source.
  rewrite parse_mode_request by assumption.
  cbn [eval_statements eval].
  repeat (rewrite global_bootstrapped by exact Hb;
          cbv -[global lookup insert app]).
  reflexivity.
Qed.

Lemma eval_theme_request (url name : QString) :
  Forall (plain 39%N) url -> Forall (plain 39%N) name ->
  eval_source (theme_request_text url name) p
  = (Normal JSUndefined,
     with_ace (with_theme (qs "ace/theme/" ++ name)) (with_fetched url p)).
Proof.
  intros Hu Hn. unfold eval_source.
  rewrite parse_theme_request by assumption.
  cbn [eval_statements eval].
  repeat (rewrite global_bootstrapped by exact Hb;
          cbv -[global lookup insert app]).
  reflexivity.
Qed.

Lemma eval_smuggle (a b : QString) :
  Forall (plain 39%N) a -> Forall (plain 39%N) b ->
  eval_source (setText_snippet (smuggle a b)) p
  = (Normal (JSString b),
     with_ace (fun e => mkAce b true true (line_count b) (ace_mode e)
                          (ace_theme e)) p).
Proof.
  intros Ha Hb'. unfold eval_source.
  rewrite parse_smuggle by assumption.
  eval_ready Hb. reflexivity.
Qed.

Lemma eval_property_lines :
  eval_source (qs "property('lines')") p
  = (Normal (JSNumber (line_count (ace_value (ace p)))), p).
Proof.
  unfold eval_source. parse_closed.
  cbn [eval_statements eval].
  repeat (rewrite global_bootstrapped by exact Hb;
          cbv -[global lookup insert line_count]).
  reflexivity.
Qed.
End Ready.
End TwoLiterals.

(* ===================================================================== *)
(** ** The operations, one by one *)
(* ===================================================================== *)

Ltac snippets_only_tac :=
  repeat first [ apply snippets_only_bind; [| intros ?]
               | apply executeJavaScript_snippets_only
               | apply so_ret ].

Lemma queries_snippets_only :
  snippets_only lines /\ snippets_only text /\ snippets_only isReadOnly.
Proof. unfold lines, text, isReadOnly. repeat split; snippets_only_tac. Qed.

Section Final.
Import JS.
Context (env : Resources) (p : Page) (Hb : bootstrapped p = true).

Lemma lines_run :
  run (webview env) lines p
  = (wrap32 (line_count (ace_value (ace p))), p,
     [(p, Evaluated (Snippet (qs "property('lines')")))]).
Proof.
  unfold lines. run_step. rewrite eval_property_lines by exact Hb. reflexivity.
Qed.

Lemma text_run :
  run (webview env) text p
  = (ace_value (ace p), p, [(p, Evaluated (Snippet (qs "property('text')")))]).
Proof.
  unfold text. run_step. rewrite eval_property_text by exact Hb. reflexivity.
Qed.

Lemma isReadOnly_run :
  run (webview env) isReadOnly p
  = (toBool (to_variant (Normal (default JSUndefined (props p !! qs "readonly")))),
     p, [(p, Evaluated (Snippet (qs "property('readonly')")))]).
Proof.
  unfold isReadOnly. run_step.
  rewrite eval_property_readonly by exact Hb. reflexivity.
Qed.

Lemma setHighlightMode_name_url_final (name : QString) (url : QUrl) :
  Forall (plain 39%N) name -> Forall (plain 39%N) (QUrl_toString url) ->
  final (webview env) (setHighlightMode_name_url name url) p
  = with_ace (with_mode (qs "ace/mode/" ++ name))
      (with_fetched (QUrl_toString url) p).
Proof.
  intros Hn Hu. unfold final, setHighlightMode_name_url. run_step.
  change (qs "" ++ ?x) with x. rewrite <- (app_assoc (qs "');")).
  fold (mode_request_text (QUrl_toString url) name).
  rewrite eval_mode_request by assumption. reflexivity.
Qed.

Lemma setTheme_name_url_final (name : QString) (url : QUrl) :
  Forall (plain 39%N) name -> Forall (plain 39%N) (QUrl_toString url) ->
  final (webview env) (setTheme_name_url name url) p
  = with_ace (with_theme (qs "ace/theme/" ++ name))
      (with_fetched (QUrl_toString url) p).
Proof.
  intros Hn Hu. unfold final, setTheme_name_url. run_step.
  change (qs "" ++ ?x) with x. rewrite <- (app_assoc (qs "');")).
  fold (theme_request_text (QUrl_toString url) name).
  rewrite eval_theme_request by assumption. reflexivity.
Qed.
End Final.

(* ===================================================================== *)
(** ** Further properties of the facade *)
(* ===================================================================== *)

(** X1: the three queries [lines], [text] and [isReadOnly] leave the page
    exactly as it was, bootstrapped or not, so asking twice gives the same
    answer twice. *)
Theorem queries_leave_page (env : Resources) (p : JS.Page) :
  (final (webview env) lines p = p
   /\ final (webview env) text p = p
   /\ final (webview env) isReadOnly p = p)
  /\ (result (webview env) (lines;; lines) p = result (webview env) lines p
      /\ result (webview env) (text;; text) p = result (webview env) text p
      /\ result (webview env) (isReadOnly;; isReadOnly) p
         = result (webview env) isReadOnly p).
Proof.
  assert (final (webview env) lines p = p
          /\ final (webview env) text p = p
          /\ final (webview env) isReadOnly p = p) as (Hl & Ht & Hr).
  { destruct (JS.bootstrapped p) eqn:Hb.
    - unfold final. rewrite lines_run, text_run, isReadOnly_run by exact Hb.
      repeat split.
    - destruct queries_snippets_only as (Sl & St & Sr).
      repeat split; apply snippets_only_inert; assumption. }
  split; [repeat split; assumption |].
  rewrite !result_bind, Hl, Ht, Hr. repeat split.
Qed.





Lemma scan_all_failed (cs : QString) : JS.scan_all None cs = None.
Proof. induction cs as [| c cs IH]; [reflexivity | exact IH]. Qed.

(** A raw line break inside the quotes of [setText], before any quote or
    backslash, makes the whole snippet a syntax error, whatever follows. *)
Lemma setText_line_break_syntax_error (a b : QString) (c : N) :
  Forall (JS.plain 39%N) a -> c = 10%N \/ c = 13%N ->
  JS.parse_program (setText_snippet (a ++ c :: b)) = None.
Proof.
  intros Ha Hc. unfold JS.parse_program, JS.tokenize, setText_snippet.
  rewrite <- (app_assoc a), !scan_all_app.
  set (st := JS.scan_all (Some JS.scanner_start) (qs "editor.setValue('")).
  vm_compute in st. subst st.
  erewrite scan_string_plain; [| reflexivity | exact Ha].
  cbn [app JS.scan_all foldl mbind option_bind].
  erewrite scan_string_line_break;
    [ | reflexivity | destruct Hc as [-> | ->]; discriminate
      | destruct Hc as [-> | ->]; discriminate
      | destruct Hc as [-> | ->]; reflexivity ].
  change (foldl _ None ?l) with (JS.scan_all None l).
  rewrite scan_all_failed. reflexivity.
Qed.

(** X3: a failed [setText] still runs its second snippet.  When the text has
    a raw line feed or carriage return before any quote or backslash,
    whatever follows it, the snippet of [setText] is a syntax error: on a
    bootstrapped page the old text stays, [text] answers as before, and the
    selection is cleared all the same. *)
Theorem setText_line_break_sets_nothing
  (env : Resources) (p : JS.Page) (a b : QString) (c : N) :
  JS.bootstrapped p = true ->
  Forall (JS.plain 39%N) a ->
  c = 10%N \/ c = 13%N ->
  let after := final (webview env) (setText (a ++ c :: b)) p in
  after
  = JS.with_ace
      (fun e => JS.mkAce (JS.ace_value e) (JS.ace_readOnly e) false
                  (JS.ace_cursor e) (JS.ace_mode e) (JS.ace_theme e)) p
  /\ result (webview env) text after = result (webview env) text p.
Proof.
  intros Hb Ha Hc after.
  assert (after
          = JS.with_ace
              (fun e => JS.mkAce (JS.ace_value e) (JS.ace_readOnly e) false
                          (JS.ace_cursor e) (JS.ace_mode e) (JS.ace_theme e)) p)
    as E.
  { unfold after, final, setText.
    cbn [run mbind mret prog_bind prog_ret bind executeJavaScript perform
         webview].
    fold (setText_snippet (a ++ c :: b)).
    rewrite syntax_error_no_effect
      by (apply setText_line_break_syntax_error; assumption).
    cbn [evaluateJavaScript]. rewrite eval_clearSelection by exact Hb.
    reflexivity. }
  split; [exact E |]. rewrite E. unfold result.
  rewrite !text_run by exact Hb. reflexivity.
Qed.

Lemma setText_line_break_sets_nothing_witness :
  let after :=
    final (webview all_resources)
      (setText (qs "first" ++ 10%N :: qs "second ' line")) ready_page in
  after
  = JS.with_ace
      (fun e => JS.mkAce (JS.ace_value e) (JS.ace_readOnly e) false
                  (JS.ace_cursor e) (JS.ace_mode e) (JS.ace_theme e)) ready_page
  /\ result (webview all_resources) text after
     = result (webview all_resources) text ready_page.
Proof.
  apply (setText_line_break_sets_nothing all_resources ready_page
           (qs "first") (qs "second ' line") 10%N).
  - vm_compute. reflexivity.
  - apply (bool_decide_unpack _). vm_compute. exact I.
  - left. reflexivity.
Defined.

(** X4: [setText] on a text with nothing to escape replaces the text,
    clears the selection and leaves the cursor on the last line of the new
    text; the read-only flag, the mode, the theme, the page-side properties
    and the requested scripts are those of before, and [isReadOnly] answers
    as before. *)
Theorem setText_changes_text_only
  (env : Resources) (p : JS.Page) (s : QString) :
  JS.bootstrapped p = true ->
  Forall (JS.plain 39%N) s ->
  final (webview env) (setText s) p = JS.with_ace (with_text s) p
  /\ result (webview env) (setText s;; isReadOnly) p
     = result (webview env) isReadOnly p.
Proof.
  intros Hb Hs.
  assert (final (webview env) (setText s) p = JS.with_ace (with_text s) p) as E
      by (apply setText_final; assumption).
  split; [exact E |].
  rewrite result_bind, E. unfold result.
  rewrite !isReadOnly_run by exact Hb. reflexivity.
Qed.

Lemma setText_changes_text_only_witness :
  final (webview all_resources) (setText (qs "x = 1")) ready_page
  = JS.with_ace (with_text (qs "x = 1")) ready_page
  /\ result (webview all_resources) (setText (qs "x = 1");; isReadOnly) ready_page
     = result (webview all_resources) isReadOnly ready_page.
Proof.
  apply setText_changes_text_only.
  - vm_compute. reflexivity.
  - apply (bool_decide_unpack _). vm_compute. exact I.
Defined.

(** X5: the last [setText] wins: for texts with nothing to escape,
    [setText a] followed by [setText b] leaves the page [setText b] alone
    leaves. *)
Theorem setText_last_wins (env : Resources) (p : JS.Page) (a b : QString) :
  JS.bootstrapped p = true ->
  Forall (JS.plain 39%N) a -> Forall (JS.plain 39%N) b ->
  final (webview env) (setText a;; setText b) p
  = final (webview env) (setText b) p.
Proof.
  intros Hb Ha Hb'.
  rewrite final_bind, (setText_final env p Hb a Ha).
  rewrite !setText_final by assumption. reflexivity.
Qed.

Lemma setText_last_wins_witness :
  final (webview all_resources) (setText (qs "one");; setText (qs "two")) ready_page
  = final (webview all_resources) (setText (qs "two")) ready_page.
Proof.
  apply setText_last_wins.
  - vm_compute. reflexivity.
  - apply (bool_decide_unpack _). vm_compute. exact I.
  - apply (bool_decide_unpack _). vm_compute. exact I.
Defined.

(** X6: switching read-only on twice is the same as once, and it leaves
    the text alone: [text] answers as before. *)
Theorem setReadOnly_true_idempotent (env : Resources) (p : JS.Page) :
  JS.bootstrapped p = true ->
  final (webview env) (setReadOnly true;; setReadOnly true) p
  = final (webview env) (setReadOnly true) p
  /\ result (webview env) (setReadOnly true;; text) p
     = result (webview env) text p.
Proof.
  intros Hb.
  pose proof (setReadOnly_true_final env p Hb) as E.
  split.
  - rewrite final_bind, E. rewrite setReadOnly_true_final by exact Hb.
    unfold JS.with_ace, JS.with_props. cbn [JS.loaded JS.window_objects
      JS.helper JS.ace JS.props JS.fetched JS.ace_value JS.ace_readOnly
      JS.ace_selected JS.ace_cursor JS.ace_mode JS.ace_theme].
    rewrite insert_insert_eq. reflexivity.
  - rewrite result_bind, E. unfold result.
    rewrite !text_run by exact Hb. reflexivity.
Qed.

Lemma setReadOnly_true_idempotent_witness :
  final (webview all_resources) (setReadOnly true;; setReadOnly true) ready_page
  = final (webview all_resources) (setReadOnly true) ready_page
  /\ result (webview all_resources) (setReadOnly true;; text) ready_page
     = result (webview all_resources) text ready_page.
Proof.
  apply setReadOnly_true_idempotent. vm_compute. reflexivity.
Defined.

(** X7: the name-and-address overload of [setHighlightMode], for any name
    and address with nothing to escape in them: on a bootstrapped page it
    requests the script at the address, makes [ace/mode/<name>] the mode
    and changes nothing else. *)
Theorem setHighlightMode_name_url_effect
  (env : Resources) (p : JS.Page) (name : QString) (url : QUrl) :
  JS.bootstrapped p = true ->
  Forall (JS.plain 39%N) name ->
  Forall (JS.plain 39%N) (QUrl_toString url) ->
  final (webview env) (setHighlightMode_name_url name url) p
  = JS.with_ace (with_mode (qs "ace/mode/" ++ name))
      (JS.with_fetched (QUrl_toString url) p).
Proof. intros Hb Hn Hu. apply setHighlightMode_name_url_final; assumption. Qed.

Lemma setHighlightMode_name_url_effect_witness :
  final (webview all_resources)
    (setHighlightMode_name_url (qs "lua") (mkQUrl (qs "qrc:/ace/mode-lua.js")))
    ready_page
  = JS.with_ace (with_mode (qs "ace/mode/lua"))
      (JS.with_fetched (qs "qrc:/ace/mode-lua.js") ready_page).
Proof.
  apply (setHighlightMode_name_url_effect all_resources ready_page (qs "lua")
           (mkQUrl (qs "qrc:/ace/mode-lua.js"))).
  - vm_compute. reflexivity.
  - apply (bool_decide_unpack _). vm_compute. exact I.
  - apply (bool_decide_unpack _). vm_compute. exact I.
Defined.

(** X8: the name-and-address overload of [setTheme], likewise: it requests
    the script at the address, makes [ace/theme/<name>] the theme and
    changes nothing else. *)
Theorem setTheme_name_url_effect
  (env : Resources) (p : JS.Page) (name : QString) (url : QUrl) :
  JS.bootstrapped p = true ->
  Forall (JS.plain 39%N) name ->
  Forall (JS.plain 39%N) (QUrl_toString url) ->
  final (webview env) (setTheme_name_url name url) p
  = JS.with_ace (with_theme (qs "ace/theme/" ++ name))
      (JS.with_fetched (QUrl_toString url) p).
Proof. intros Hb Hn Hu. apply setTheme_name_url_final; assumption. Qed.

Lemma setTheme_name_url_effect_witness :
  final (webview all_resources)
    (setTheme_name_url (qs "dawn") (mkQUrl (qs "qrc:/ace/theme-dawn.js")))
    ready_page
  = JS.with_ace (with_theme (qs "ace/theme/dawn"))
      (JS.with_fetched (qs "qrc:/ace/theme-dawn.js") ready_page).
Proof.
  apply (setTheme_name_url_effect all_resources ready_page (qs "dawn")
           (mkQUrl (qs "qrc:/ace/theme-dawn.js"))).
  - vm_compute. reflexivity.
  - apply (bool_decide_unpack _). vm_compute. exact I.
  - apply (bool_decide_unpack _). vm_compute. exact I.
Defined.

(** X9: mode and theme do not interfere: setting the mode and then the
    theme leaves the editor in the state that setting the theme and then
    the mode leaves it in; only the order of the two script requests
    differs. *)
Theorem mode_and_theme_commute
  (env : Resources) (p : JS.Page) (m t : QString) (mu tu : QUrl) :
  JS.bootstrapped p = true ->
  Forall (JS.plain 39%N) m -> Forall (JS.plain 39%N) (QUrl_toString mu) ->
  Forall (JS.plain 39%N) t -> Forall (JS.plain 39%N) (QUrl_toString tu) ->
  let mode_first :=
    final (webview env)
      (setHighlightMode_name_url m mu;; setTheme_name_url t tu) p in
  let theme_first :=
    final (webview env)
      (setTheme_name_url t tu;; setHighlightMode_name_url m mu) p in
  JS.ace mode_first = JS.ace theme_first
  /\ JS.props mode_first = JS.props theme_first
  /\ JS.fetched mode_first
     = JS.fetched p ++ [QUrl_toString mu; QUrl_toString tu]
  /\ JS.fetched theme_first
     = JS.fetched p ++ [QUrl_toString tu; QUrl_toString mu].
Proof.
  intros Hb Hm Hmu Ht Htu mode_first theme_first.
  unfold mode_first, theme_first.
  rewrite !final_bind.
  rewrite (setHighlightMode_name_url_final env p Hb m mu Hm Hmu).
  rewrite (setTheme_name_url_final env p Hb t tu Ht Htu).
  rewrite setTheme_name_url_final, setHighlightMode_name_url_final
    by assumption.
  cbn [JS.ace JS.props JS.fetched JS.with_ace JS.with_fetched].
  rewrite <- !app_assoc. repeat split.
Qed.

Lemma mode_and_theme_commute_witness :
  let m := setHighlightMode_name_url (qs "lua") (mkQUrl (qs "qrc:/ace/mode-lua.js")) in
  let t := setTheme_name_url (qs "dawn") (mkQUrl (qs "qrc:/ace/theme-dawn.js")) in
  JS.ace (final (webview all_resources) (m;; t) ready_page)
  = JS.ace (final (webview all_resources) (t;; m) ready_page).
Proof.
  intros m t.
  apply (mode_and_theme_commute all_resources ready_page (qs "lua") (qs "dawn")
           (mkQUrl (qs "qrc:/ace/mode-lua.js"))
           (mkQUrl (qs "qrc:/ace/theme-dawn.js")));
    first [ vm_compute; reflexivity
          | apply (bool_decide_unpack _); vm_compute; exact I ].
Defined.

(** X10: text given to [setText] can carry statements of its own.  For any
    two texts [a] and [b] with nothing to escape in them, [setText] of [a],
    a closing quote, a call of [editor.setReadOnly(true)], a reopened
    [editor.setValue('] and [b] makes the editor read-only and leaves [b]
    as its text, while [isReadOnly], which reads the page-side property,
    answers as before. *)
Theorem setText_runs_smuggled_statement
  (env : Resources) (p : JS.Page) (a b : QString) :
  JS.bootstrapped p = true ->
  Forall (JS.plain 39%N) a -> Forall (JS.plain 39%N) b ->
  let after := final (webview env) (setText (smuggle a b)) p in
  after = JS.with_ace (fun e => with_readOnly true (with_text b e)) p
  /\ result (webview env) text after = b
  /\ JS.ace_readOnly (JS.ace after) = true
  /\ result (webview env) isReadOnly after = result (webview env) isReadOnly p.
Proof.
  intros Hb Ha Hb' after.
  assert (after = JS.with_ace (fun e => with_readOnly true (with_text b e)) p)
    as E.
  { unfold after, final, setText. run_step.
    fold (setText_snippet (smuggle a b)).
    rewrite eval_smuggle by assumption. run_step.
    rewrite eval_clearSelection by exact Hb. reflexivity. }
  split; [exact E |]. rewrite E. unfold result.
  rewrite text_run, !isReadOnly_run by exact Hb. repeat split.
Qed.

Lemma setText_runs_smuggled_statement_witness :
  let after :=
    final (webview all_resources) (setText (smuggle (qs "a") (qs "b")))
      ready_page in
  after = JS.with_ace (fun e => with_readOnly true (with_text (qs "b") e))
            ready_page
  /\ result (webview all_resources) text after = qs "b"
  /\ JS.ace_readOnly (JS.ace after) = true
  /\ result (webview all_resources) isReadOnly after
     = result (webview all_resources) isReadOnly ready_page.
Proof.
  apply (setText_runs_smuggled_statement all_resources ready_page (qs "a") (qs "b")).
  - vm_compute. reflexivity.
  - apply (bool_decide_unpack _). vm_compute. exact I.
  - apply (bool_decide_unpack _). vm_compute. exact I.
Defined.

(** The identifier is the name spliced into the request. *)
Ltac pick_identifier :=
  match goal with
  | |- exists id, _ /\ [Evaluated (Snippet (_ ++ _ ++ _ ++ _ ++ ?n ++ _))] = _ =>
      exists n; split;
      [ apply (bool_decide_unpack _); vm_compute; exact I | reflexivity ]
  end.

(** X11: whatever integer is passed as the mode, and whatever values the
    enumerators have, [setHighlightMode] either makes no call or evaluates
    the request of one of the nine documented identifiers; [setTheme]
    either makes no call or evaluates the request of one of the three. *)
Theorem enumeration_overloads_stay_in_table `{EditorHeader}
  (S : Type) (h : handler S) (s : S) :
  (forall mode : HighlightMode,
      events h (setHighlightMode mode) s = []
      \/ exists id, id ∈ mode_identifiers.*2
                    /\ events h (setHighlightMode mode) s
                       = [Evaluated (mode_request id)])
  /\ (forall theme : Theme,
        events h (setTheme theme) s = []
        \/ exists id, id ∈ theme_identifiers.*2
                      /\ events h (setTheme theme) s
                         = [Evaluated (theme_request id)]).
Proof.
  split.
  - intros mode. unfold setHighlightMode.
    repeat case_match; try (left; reflexivity);
      right; rewrite setHighlightMode_name_url_events; pick_identifier.
  - intros theme. unfold setTheme.
    repeat case_match; try (left; reflexivity);
      right; rewrite setTheme_name_url_events; pick_identifier.
Qed.

Lemma snippets_only_events {A : Type} (prog : Bridge.prog A) :
  snippets_only prog ->
  forall (S : Type) (h : handler S) (s : S), only_snippets (events h prog s).
Proof.
  induction 1 as [a | code k Hk IH]; intros S h s; [constructor |].
  unfold only_snippets, events, history in *. cbn [run].
  destruct (h _ (EvaluateJavaScript (Snippet code)) s) as [v s1].
  specialize (IH v S h s1).
  destruct (run h (k v) s1) as [[a s2] log]. cbn in *.
  constructor; [reflexivity | exact IH].
Qed.

(** X12: under every web view, a public operation only evaluates source
    text: it never loads a page, injects an object or opens a resource; and
    it makes at most two calls. *)
Theorem operations_only_evaluate `{EditorHeader} (o : operation)
  (S : Type) (h : handler S) (s : S) :
  only_snippets (events h (invoke o) s)
  /\ (length (events h (invoke o) s) <= 2)%nat.
Proof.
  split; [apply snippets_only_events, invoke_snippets_only |].
  destruct o; cbn [invoke];
    unfold lines, gotoLine, text, setText, isReadOnly, setReadOnly,
      setHighlightMode, setTheme, setHighlightMode_name_url, setTheme_name_url;
    repeat case_match;
    unfold events, history;
    cbn [run mbind mret prog_bind prog_ret bind executeJavaScript perform];
    repeat match goal with
           | |- context [h ?X ?c ?st] => destruct (h X c st)
           end;
    cbn; lia.
Qed.

(** X13: every callback of the page is passed on as exactly one
    notification of [Editor], of the same kind and with the same value, in
    the order of the callbacks: [onLinesChanged n] as [linesChanged n] and
    [onTextChanged] as [textChanged]. *)
Theorem callbacks_are_relayed (cs : list Signals.callback) :
  Signals.notifications cs
  = (fun c => match c with
              | Signals.onLinesChanged n => (Signals.Editor_linesChanged, [n])
              | Signals.onTextChanged => (Signals.Editor_textChanged, [])
              end) <$> cs.
Proof.
  unfold Signals.notifications.
  induction cs as [| c cs IH]; [reflexivity |].
  cbn [mbind list_bind fmap list_fmap]. rewrite <- IH.
  destruct c; reflexivity.
Qed.

(* ===================================================================== *)
(** ** The facade as updates of the page *)
(* ===================================================================== *)

Lemma gotoLine_final (env : Resources) (p : JS.Page) (n : Z) :
  JS.bootstrapped p = true ->
  final (webview env) (gotoLine n) p
  = JS.with_ace
      (fun a => JS.mkAce (JS.ace_value a) (JS.ace_readOnly a) false
                  (JS.clip 1 (JS.line_count (JS.ace_value a)) n)
                  (JS.ace_mode a) (JS.ace_theme a)) p.
Proof.
  intros Hb. unfold final, gotoLine. run_step.
  fold (gotoLine_snippet n). rewrite eval_gotoLine by exact Hb. reflexivity.
Qed.

Lemma setReadOnly_false_final (env : Resources) (p : JS.Page) :
  final (webview env) (setReadOnly false) p = p.
Proof.
  unfold final, setReadOnly.
  cbn [run mbind mret prog_bind prog_ret bind executeJavaScript perform webview].
  rewrite syntax_error_no_effect by exact setReadOnly_false_syntax_error.
  reflexivity.
Qed.

Ltac plain_closed := apply (bool_decide_unpack _); vm_compute; exact I.

Lemma operation_effect_page `{EditorHeader}
  (env : Resources) (p : JS.Page) (o : operation) :
  JS.bootstrapped p = true ->
  escape_free o ->
  final (webview env) (invoke o) p = effect o p.
Proof.
  intros Hb Ho. destruct o as [| n | | s | | [] | mode | name url | theme | name url];
    cbn [invoke effect].
  - rewrite final_bind. unfold final at 2. rewrite lines_run by exact Hb.
    reflexivity.
  - apply gotoLine_final. exact Hb.
  - rewrite final_bind. unfold final at 2. rewrite text_run by exact Hb.
    reflexivity.
  - apply setText_final; assumption.
  - rewrite final_bind. unfold final at 2. rewrite isReadOnly_run by exact Hb.
    reflexivity.
  - apply setReadOnly_true_final. exact Hb.
  - apply setReadOnly_false_final.
  - unfold setHighlightMode, mode_identifiers. cbn [first_match].
    repeat (case_match; [apply setHighlightMode_name_url_final;
                          [exact Hb | plain_closed | plain_closed] |]).
    reflexivity.
  - destruct Ho as [Hn Hu]. apply setHighlightMode_name_url_final; assumption.
  - unfold setTheme, theme_identifiers. cbn [first_match].
    repeat (case_match; [apply setTheme_name_url_final;
                          [exact Hb | plain_closed | plain_closed] |]).
    reflexivity.
  - destruct Ho as [Hn Hu]. apply setTheme_name_url_final; assumption.
Qed.


(** X14: on a bootstrapped page, every public operation whose arguments
    have nothing to escape in them acts as a direct update of the page:
    the queries and [setReadOnly false] change nothing, [gotoLine] moves the
    cursor, [setText] replaces the text, [setReadOnly true] sets property
    and flag, and the mode and theme operations request a script and set
    the mode or the theme, the enumeration overloads through the first
    matching case. *)
Theorem operation_effect `{EditorHeader}
  (env : Resources) (p : JS.Page) (o : operation) :
  JS.bootstrapped p = true ->
  escape_free o ->
  final (webview env) (invoke o) p = effect o p.
Proof. apply operation_effect_page. Qed.

Lemma operation_effect_witness :
  final (webview all_resources) (@invoke default_header (CallSetHighlightMode 7))
    ready_page
  = @effect default_header (CallSetHighlightMode 7) ready_page.
Proof.
  apply (@operation_effect default_header all_resources ready_page
           (CallSetHighlightMode 7)).
  - vm_compute. reflexivity.
  - exact I.
Defined.

Lemma effect_bootstrapped `{EditorHeader} (o : operation) (p : JS.Page) :
  JS.bootstrapped (effect o p) = JS.bootstrapped p.
Proof. destruct o; cbn [effect]; repeat case_match; reflexivity. Qed.

Lemma invoke_all_effect `{EditorHeader} (env : Resources)
  (os : list operation) :
  forall p, JS.bootstrapped p = true -> Forall escape_free os ->
            final (webview env) (invoke_all os) p
            = foldl (fun q o => effect o q) p os.
Proof.
  induction os as [| o os IH]; intros p Hb Hos; [reflexivity |].
  apply Forall_cons_1 in Hos as [Ho Hos].
  cbn [invoke_all foldl]. rewrite final_bind.
  rewrite (operation_effect_page env p o Hb Ho).
  apply IH; [| exact Hos]. rewrite effect_bootstrapped. exact Hb.
Qed.

(** X15: operations compose as their updates do: on a bootstrapped page a
    sequence of operations with nothing to escape in their arguments leaves
    the page that applying the update of each operation in turn gives, and
    the page is still bootstrapped. *)
Theorem operations_compose `{EditorHeader}
  (env : Resources) (p : JS.Page) (os : list operation) :
  JS.bootstrapped p = true ->
  Forall escape_free os ->
  final (webview env) (invoke_all os) p = foldl (fun q o => effect o q) p os
  /\ JS.bootstrapped (final (webview env) (invoke_all os) p) = true.
Proof.
  intros Hb Hos. split; [apply invoke_all_effect; assumption |].
  destruct (snippets_only_history env (invoke_all os)
              (invoke_all_snippets_only os) p Hb) as [_ Hf]. exact Hf.
Qed.

Lemma operations_compose_witness :
  let os := [CallSetText (qs "a"); CallSetReadOnly true; CallGotoLine 3;
             CallSetTheme 2] in
  final (webview all_resources) (@invoke_all default_header os) ready_page
  = foldl (fun q o => @effect default_header o q) ready_page os
  /\ JS.bootstrapped
       (final (webview all_resources) (@invoke_all default_header os) ready_page)
     = true.
Proof.
  intros os.
  apply (@operations_compose default_header all_resources ready_page os).
  - vm_compute. reflexivity.
  - repeat constructor; plain_closed.
Defined.

Lemma effect_keeps_read_only `{EditorHeader} (o : operation) (p : JS.Page) :
  read_only p -> read_only (effect o p).
Proof.
  intros [Hp Hf]. unfold read_only.
  destruct o as [| n | | s | | [] | mode | name url | theme | name url];
    cbn [effect]; repeat case_match;
    cbn [JS.props JS.ace JS.ace_readOnly JS.with_ace JS.with_props
         JS.with_fetched with_text with_mode with_theme with_readOnly];
    rewrite ?lookup_insert_eq; split; first [assumption | reflexivity].
Qed.

Lemma effects_keep_read_only `{EditorHeader} (os : list operation) :
  forall p, read_only p -> read_only (foldl (fun q o => effect o q) p os).
Proof.
  induction os as [| o os IH]; intros p Hp; [exact Hp |].
  cbn [foldl]. apply IH, effect_keeps_read_only, Hp.
Qed.

(** X16: read-only is a one-way switch.  After [setReadOnly true] on a
    bootstrapped page, no sequence of public operations with nothing to
    escape in their arguments, [setReadOnly false] included, switches it
    off: [isReadOnly] returns true and the flag of the editor is set. *)
Theorem read_only_is_one_way `{EditorHeader}
  (env : Resources) (p : JS.Page) (os : list operation) :
  JS.bootstrapped p = true ->
  Forall escape_free os ->
  let after := final (webview env) (setReadOnly true;; invoke_all os) p in
  result (webview env) isReadOnly after = true
  /\ JS.ace_readOnly (JS.ace after) = true.
Proof.
  intros Hb Hos after.
  assert (JS.bootstrapped after = true /\ read_only after) as [Hba [Hp Hf]].
  { unfold after. rewrite final_bind.
    rewrite (setReadOnly_true_final env p Hb).
    set (q := JS.with_ace _ _).
    assert (JS.bootstrapped q = true) as Hq by exact Hb.
    split.
    - destruct (snippets_only_history env (invoke_all os)
                  (invoke_all_snippets_only os) q Hq) as [_ Hfin]. exact Hfin.
    - rewrite invoke_all_effect by assumption.
      apply effects_keep_read_only. split; [| reflexivity].
      unfold q. cbn [JS.props JS.with_ace JS.with_props].
      apply lookup_insert_eq. }
  split; [| exact Hf].
  unfold result. rewrite isReadOnly_run by exact Hba. cbn [fst].
  rewrite Hp. reflexivity.
Qed.

Lemma read_only_is_one_way_witness :
  let os := [CallSetReadOnly false; CallSetText (qs "a"); CallSetReadOnly false] in
  let after :=
    final (webview all_resources)
      (setReadOnly true;; @invoke_all default_header os) ready_page in
  result (webview all_resources) isReadOnly after = true
  /\ JS.ace_readOnly (JS.ace after) = true.
Proof.
  intros os.
  apply (@read_only_is_one_way default_header all_resources ready_page os).
  - vm_compute. reflexivity.
  - repeat constructor; plain_closed.
Defined.

Lemma effect_keeps_text `{EditorHeader} (o : operation) (p : JS.Page) :
  is_setText o = false ->
  JS.ace_value (JS.ace (effect o p)) = JS.ace_value (JS.ace p).
Proof.
  intros Ho.
  destruct o as [| n | | s | | [] | mode | name url | theme | name url];
    try discriminate Ho; cbn [effect]; repeat case_match; reflexivity.
Qed.

(** X17: only [setText] changes the text.  On a bootstrapped page, after
    any sequence of operations other than [setText], with nothing to escape
    in their arguments, [text] returns what it returned before. *)
Theorem text_changes_only_by_setText `{EditorHeader}
  (env : Resources) (p : JS.Page) (os : list operation) :
  JS.bootstrapped p = true ->
  Forall escape_free os ->
  Forall (fun o => is_setText o = false) os ->
  result (webview env) (invoke_all os;; text) p = result (webview env) text p.
Proof.
  intros Hb Hos Hno.
  rewrite result_bind.
  destruct (snippets_only_history env (invoke_all os)
              (invoke_all_snippets_only os) p Hb) as [_ Hfin].
  unfold result at 1. rewrite text_run by exact Hfin.
  unfold result. rewrite text_run by exact Hb. cbn [fst].
  rewrite invoke_all_effect by assumption.
  clear Hb Hfin. revert p.
  induction os as [| o os IH]; intros p; [reflexivity |].
  apply Forall_cons_1 in Hos as [_ Hos].
  apply Forall_cons_1 in Hno as [Ho Hno].
  cbn [foldl]. rewrite IH by assumption.
  apply effect_keeps_text. exact Ho.
Qed.

Lemma text_changes_only_by_setText_witness :
  let os := [CallSetReadOnly true; CallGotoLine 40; CallSetHighlightMode 3;
             CallSetThemeNameUrl (qs "dawn") (mkQUrl (qs "qrc:/ace/theme-dawn.js"))] in
  result (webview all_resources) (@invoke_all default_header os;; text) ready_page
  = result (webview all_resources) text ready_page.
Proof.
  intros os.
  apply (@text_changes_only_by_setText default_header all_resources ready_page os).
  - vm_compute. reflexivity.
  - repeat constructor; plain_closed.
  - repeat constructor.
Defined.

Lemma plain_no_line_breaks (s : QString) :
  Forall (JS.plain 39%N) s -> JS.line_breaks s = 0.
Proof.
  induction 1 as [| c s (_ & _ & Hl) _ IH]; [reflexivity |].
  assert (c <> 13%N) as H13 by (intros ->; discriminate Hl).
  cbn [JS.line_breaks]. rewrite Hl, IH.
  destruct c as [| q]; [reflexivity |].
  repeat (destruct q as [q | q |]; try reflexivity); congruence.
Qed.

(** X18: a text that [setText] can pass without escaping is a single line:
    on a bootstrapped page, [lines] returns 1 after [setText] of a text
    with no quote, backslash or line terminator. *)
Theorem setText_gives_one_line (env : Resources) (p : JS.Page) (s : QString) :
  JS.bootstrapped p = true ->
  Forall (JS.plain 39%N) s ->
  result (webview env) (setText s;; lines) p = 1.
Proof.
  intros Hb Hs. rewrite result_bind, setText_final by assumption.
  unfold result. rewrite lines_run by exact Hb. cbn [fst].
  cbn [JS.ace JS.with_ace JS.ace_value]. unfold JS.line_count.
  rewrite plain_no_line_breaks by exact Hs. reflexivity.
Qed.

Lemma setText_gives_one_line_witness :
  result (webview all_resources) (setText (qs "a; b; c");; lines) ready_page = 1.
Proof.
  apply setText_gives_one_line.
  - vm_compute. reflexivity.
  - plain_closed.
Defined.

(** X19: the constructor leaves a bootstrapped page exactly when both the
    page and the helper script can be loaded. *)
Theorem constructor_bootstraps_iff (env : Resources) :
  JS.bootstrapped (final (webview env) Editor_new JS.blank_page)
  = env (qs "qrc:/html/ace.html") && env (qs ":/html/wrapper.js").
Proof.
  unfold final, Editor_new, startAceWidget. run_step. cbn [url_text].
  destruct (env (qs "qrc:/html/ace.html")), (env (qs ":/html/wrapper.js"));
    reflexivity.
Qed.

(* ===================================================================== *)
(** ** The cursor stays in the document *)
(* ===================================================================== *)

Section Invariants.
Import JS.
Context (I : Page -> Prop).
Context (Hmethod : forall o name args p, I p -> I (call_method o name args p).2).
Context (Hproperty : forall args p, I p -> I (call_property args p).2).

Lemma eval_args_preserves (es : list expr) :
  Forall (fun e => forall p, I p -> I (eval e p).2) es ->
  forall p, I p -> I (eval_args es p).2.
Proof.
  induction 1 as [| e es He Hes IH]; intros p Hp; [exact Hp |].
  cbn [eval_args]. specialize (He p Hp).
  destruct (eval e p) as [[v |] p1]; cbn in He; [| exact He].
  specialize (IH p1 He). destruct (eval_args es p1) as [r p2]. exact IH.
Qed.

(** What the methods of the page keep, every expression keeps. *)
Lemma eval_preserves (e : expr) : forall p, I p -> I (eval e p).2.
Proof.
  induction e as [name | s | z | b | e IH | e name IH | f args IHf IHargs]
    using expr_nested_ind; intros p Hp; try exact Hp.
  - cbn [eval]. specialize (IH p Hp).
    destruct (eval e p) as [[[] |] p1]; exact IH.
  - cbn [eval]. specialize (IH p Hp).
    destruct (eval e p) as [[v |] p1]; exact IH.
  - destruct (member_or_not f) as [(e1 & name & ->) | Hf].
    + rewrite eval_call_member. specialize (IHf p Hp). cbn [eval] in IHf.
      destruct (eval e1 p) as [[v |] p1]; cbn in IHf; [| exact IHf].
      pose proof (eval_args_preserves args IHargs p1 IHf) as Ha.
      destruct v as [| | | | o]; try exact IHf.
      destruct (eval_args args p1) as [[vs |] p2]; cbn in Ha;
        [apply Hmethod; exact Ha | exact Ha].
    + rewrite eval_call_function by exact Hf. specialize (IHf p Hp).
      destruct (eval f p) as [[v |] p1]; cbn in IHf; [| exact IHf].
      pose proof (eval_args_preserves args IHargs p1 IHf) as Ha.
      destruct v as [| | | | []]; try exact IHf.
      destruct (eval_args args p1) as [[vs |] p2]; cbn in Ha;
        [apply Hproperty; exact Ha | exact Ha].
Qed.

Lemma eval_source_preserves (code : QString) (p : Page) :
  I p -> I (eval_source code p).2.
Proof.
  intros Hp. unfold eval_source.
  destruct (parse_program code) as [es |]; [| exact Hp].
  generalize JSUndefined. revert p Hp.
  induction es as [| e es IH]; intros p Hp last; [exact Hp |].
  cbn [eval_statements]. pose proof (eval_preserves e p Hp) as He.
  destruct (eval e p) as [[v |] p1]; cbn in He; [apply IH; exact He | exact He].
Qed.
End Invariants.

Lemma line_breaks_nonneg (s : QString) : 0 <= JS.line_breaks s.
Proof.
  assert (forall n (t : QString), (length t <= n)%nat -> 0 <= JS.line_breaks t)
    as Hn.
  { induction n as [| n IH]; intros t Ht.
    - destruct t; [reflexivity | cbn in Ht; lia].
    - destruct t as [| c t]; [reflexivity |].
      cbn in Ht. assert (0 <= JS.line_breaks t) by (apply IH; lia).
      assert (forall r, t = 10%N :: r -> 0 <= JS.line_breaks r)
        by (intros r ->; apply IH; cbn in Ht; lia).
      cbn [JS.line_breaks].
      repeat case_match; subst; try lia;
        match goal with
        | Hr : forall r, _ :: _ = _ :: r -> _ |- _ =>
            specialize (Hr _ eq_refl); lia
        end. }
  apply (Hn (length s)). lia.
Qed.

(** The methods of the editor keep the cursor on a line of the document. *)
Lemma call_method_cursor (o : JS.object) (name : QString)
  (args : list JS.JSValue) (p : JS.Page) :
  cursor_in_document p -> cursor_in_document (JS.call_method o name args p).2.
Proof.
  unfold cursor_in_document. intros Hp.
  unfold JS.call_method. destruct o; repeat case_match; try exact Hp;
    cbn [snd JS.ace JS.with_ace JS.with_fetched JS.ace_cursor JS.ace_value];
    try exact Hp;
    unfold JS.line_count, JS.clip in *;
    match goal with
    | |- context [JS.line_breaks ?t] => pose proof (line_breaks_nonneg t); lia
    end.
Qed.

Lemma call_property_cursor (args : list JS.JSValue) (p : JS.Page) :
  cursor_in_document p -> cursor_in_document (JS.call_property args p).2.
Proof.
  intros Hp. unfold JS.call_property. repeat case_match; exact Hp.
Qed.

(** No source text moves the cursor out of the document. *)
Lemma snippet_keeps_cursor (code : QString) (p : JS.Page) :
  cursor_in_document p ->
  cursor_in_document (evaluateJavaScript (Snippet code) p).2.
Proof.
  intros Hp. unfold evaluateJavaScript.
  pose proof (eval_source_preserves cursor_in_document call_method_cursor
                call_property_cursor code p Hp) as E.
  destruct (JS.eval_source code p) as [r p']. exact E.
Qed.

Lemma snippets_only_cursor {A : Type} (env : Resources) (prog : Bridge.prog A) :
  snippets_only prog ->
  forall p, cursor_in_document p ->
            cursor_in_document (final (webview env) prog p).
Proof.
  induction 1 as [a | code k Hk IH]; intros p Hp; [exact Hp |].
  unfold final in *. cbn [run webview].
  pose proof (snippet_keeps_cursor code p Hp) as E.
  destruct (evaluateJavaScript (Snippet code) p) as [v p1]. cbn in E.
  specialize (IH v p1 E).
  destruct (run (webview env) (k v) p1) as [[a p2] log]. exact IH.
Qed.

(** Throughout the life of an editor the cursor is on a line of its
    document, whatever the resources and the operations. *)
Lemma session_cursor `{EditorHeader} (env : Resources) (os : list operation) :
  cursor_in_document (final (webview env) (session os) JS.blank_page).
Proof.
  unfold session. rewrite final_bind.
  apply snippets_only_cursor; [apply invoke_all_snippets_only |].
  unfold final, Editor_new, startAceWidget. run_step. cbn [url_text].
  destruct (env (qs "qrc:/html/ace.html")), (env (qs ":/html/wrapper.js"));
    vm_compute; split; discriminate.
Qed.
